(** * Appointment / reminder consistency of the spa booking backend

    A shallow embedding of the booking server ([server4.js], with the
    differences of its signed-token sibling noted where they matter) and
    the properties of its appointment, reminder and token handling.

    The HTTP handlers are embedded as pure functions from the request and
    the state of the two collections (or of the token object) to the
    response that is sent first, the error that reaches [next] afterwards,
    and the new state.  Requests are handled one after the other. *)

From Stdlib Require Import ZArith String Ascii List Lia Bool.
From stdpp Require Import gmap strings list fin_maps.

Local Open Scope string_scope.
Local Open Scope Z_scope.
Local Open Scope list_scope.

(** * JavaScript values *)

(** A field of a parsed request body or query string is a string or is
    absent ([undefined]). *)
Definition field : Type := option string.

(** [!v] is [negb (truthy v)]: [undefined] and the empty string are falsy. *)
Definition truthy (v : field) : bool :=
  match v with
  | Some s => negb (String.eqb s "")
  | None => false
  end.

(** [`${v}`]: interpolation of a field in a template literal. *)
Definition template (v : field) : string :=
  match v with
  | Some s => s
  | None => "undefined"
  end.

(** ** Dates

    A [Date] object holds a time value: a number of milliseconds since the
    epoch, or NaN (an invalid date), here [None]. *)
Definition JsDate : Type := option Z.

Definition maxTime : Z := 8640000000000000.

(** [TimeClip] of ECMA-262: time values farther than 8.64e15 ms from the
    epoch become NaN. *)
Definition TimeClip (t : Z) : JsDate :=
  if Z.abs t <=? maxTime then Some t else None.

Definition getTime (d : JsDate) : option Z := d.

(** [new Date(n)] for a number [n] that may be NaN. *)
Definition new_Date_number (n : option Z) : JsDate := n ≫= TimeClip.

(** ** The date-time string format of ECMA-262

    [YYYY[-MM[-DD]]THH:mm[:ss[.sss]][Z|+HH:mm|-HH:mm]] with every element
    in range; a string without offset is local time.  [LocalTZA] is the
    offset of the host's time zone in milliseconds, taken constant. *)
Module Iso.

Definition digit (c : ascii) : option Z :=
  let n := Z.of_nat (nat_of_ascii c) in
  if (48 <=? n) && (n <=? 57) then Some (n - 48) else None.

(** Reads exactly [n] decimal digits. *)
Fixpoint digits (n : nat) (acc : Z) (l : list ascii) : option (Z * list ascii) :=
  match n with
  | O => Some (acc, l)
  | S n' =>
      match l with
      | c :: l' =>
          match digit c with
          | Some d => digits n' (10 * acc + d) l'
          | None => None
          end
      | [] => None
      end
  end.

Definition InLeapYear (y : Z) : bool :=
  ((y mod 4 =? 0) && negb (y mod 100 =? 0)) || (y mod 400 =? 0).

Definition DaysInMonth (y m : Z) : Z :=
  if m =? 2 then (if InLeapYear y then 29 else 28)
  else if (m =? 4) || (m =? 6) || (m =? 9) || (m =? 11) then 30
  else 31.

Definition DayFromYear (y : Z) : Z :=
  365 * (y - 1970) + (y - 1969) / 4 - (y - 1901) / 100 + (y - 1601) / 400.

(** Days of the year before the first of month [m] (1..12). *)
Definition DaysBeforeMonth (y m : Z) : Z :=
  fold_right Z.add 0
    (map (DaysInMonth y) (map Z.of_nat (seq 1 (Z.to_nat (m - 1))))).

Definition MakeDay (y m d : Z) : Z :=
  DayFromYear y + DaysBeforeMonth y m + (d - 1).

Definition MakeTime (h mi s ms : Z) : Z :=
  ((h * 60 + mi) * 60 + s) * 1000 + ms.

Definition msPerDay : Z := 86400000.

Definition MakeDate (day time : Z) : Z := day * msPerDay + time.

(** [-MM] and [-DD], each optional; a missing element is 1. *)
Definition month_day (l : list ascii) : option (Z * Z * list ascii) :=
  match l with
  | "-"%char :: l1 =>
      '(m, l2) ← digits 2 0 l1;
      match l2 with
      | "-"%char :: l3 =>
          '(d, l4) ← digits 2 0 l3;
          Some (m, d, l4)
      | _ => Some (m, 1, l2)
      end
  | _ => Some (1, 1, l)
  end.

(** [:ss] and [.sss], each optional. *)
Definition seconds (l : list ascii) : option (Z * Z * list ascii) :=
  match l with
  | ":"%char :: l1 =>
      '(s, l2) ← digits 2 0 l1;
      match l2 with
      | "."%char :: l3 =>
          '(ms, l4) ← digits 3 0 l3;
          Some (s, ms, l4)
      | _ => Some (s, 0, l2)
      end
  | _ => Some (0, 0, l)
  end.

(** The offset that ends the string: [Some None] when there is none
    (local time), [None] when the string is not of the format. *)
Definition offset (l : list ascii) : option (option Z) :=
  match l with
  | [] => Some None
  | ["Z"%char] => Some (Some 0)
  | sign :: l1 =>
      '(h, l2) ← digits 2 0 l1;
      match l2 with
      | ":"%char :: l3 =>
          '(mi, l4) ← digits 2 0 l3;
          match l4 with
          | [] =>
              if (h <=? 23) && (mi <=? 59) then
                if Ascii.eqb sign "+" then Some (Some (MakeTime h mi 0 0))
                else if Ascii.eqb sign "-" then Some (Some (- MakeTime h mi 0 0))
                else None
              else None
          | _ => None
          end
      | _ => None
      end
  end.

Definition time_in_range (h mi s : Z) (ms : Z) : bool :=
  ((h <=? 23) && (mi <=? 59) && (s <=? 59))
  || ((h =? 24) && (mi =? 0) && (s =? 0) && (ms =? 0)).

(** The time that the elements of the string spell, and its offset. *)
Definition parse_chars (l : list ascii) : option (Z * option Z) :=
  '(y, l1) ← digits 4 0 l;
  '(m, d, l2) ← month_day l1;
  match l2 with
  | "T"%char :: l3 =>
      '(h, l4) ← digits 2 0 l3;
      match l4 with
      | ":"%char :: l5 =>
          '(mi, l6) ← digits 2 0 l5;
          '(s, ms, l7) ← seconds l6;
          off ← offset l7;
          if (1 <=? m) && (m <=? 12) && (1 <=? d) && (d <=? DaysInMonth y m)
             && time_in_range h mi s ms
          then Some (MakeDate (MakeDay y m d) (MakeTime h mi s ms), off)
          else None
      | _ => None
      end
  | _ => None
  end.

(** The time value: the time read, moved to UTC by the offset of the
    string or, without one, by that of the host. *)
Definition parse (LocalTZA : Z) (s : string) : option Z :=
  '(t, off) ← parse_chars (list_ascii_of_string s);
  Some (t - default LocalTZA off).

End Iso.

(** * The collections

    Documents of the [Appointment] and [Reminder] models.  A string path of
    a stored document holds a string or nothing ([null] or a missing key,
    which the queries of the server do not tell apart). *)

Definition ObjectId : Type := nat.
Bind Scope nat_scope with ObjectId.

Module Appointment.
Record t : Type := mk {
  _id : ObjectId;
  name : field;
  phone : field;
  service : field;
  time : field;
  date : field;
  notes : field
}.
End Appointment.

Module Reminder.
Record t : Type := mk {
  _id : ObjectId;
  appointmentId : ObjectId;
  alertTime : Z;
  status : string
}.
End Reminder.

(** The database: both collections in insertion order, and the source of
    fresh [ObjectId]s. *)
Record DB : Type := mkDB {
  appointments : list Appointment.t;
  reminders : list Reminder.t;
  nextId : ObjectId
}.

Definition emptyDB : DB := mkDB [] [] 0.

(** [req.body] of the three booking routes. *)
Module Body.
Record t : Type := mk {
  name : field;
  phone : field;
  service : field;
  time : field;
  date : field;
  notes : field
}.
End Body.

(** The five required fields of a submission are all truthy. *)
Definition complete (b : Body.t) : Prop :=
  truthy (Body.name b) = true ∧ truthy (Body.phone b) = true
  ∧ truthy (Body.service b) = true ∧ truthy (Body.time b) = true
  ∧ truthy (Body.date b) = true.

(** ** Queries on one document *)

(** The first document that satisfies [p] is replaced by its image. *)
Fixpoint update_first {A : Type} (p : A -> bool) (f : A -> A) (l : list A) : list A :=
  match l with
  | [] => []
  | x :: l' => if p x then f x :: l' else x :: update_first p f l'
  end.

(** The first document that satisfies [p] is removed. *)
Fixpoint remove_first {A : Type} (p : A -> bool) (l : list A) : list A :=
  match l with
  | [] => []
  | x :: l' => if p x then l' else x :: remove_first p l'
  end.

(** The filter [{ phone }]. *)
Definition has_phone (phone : field) (a : Appointment.t) : bool :=
  bool_decide (Appointment.phone a = phone).

(** The filter [{ appointmentId }]. *)
Definition owned_by (id : ObjectId) (r : Reminder.t) : bool :=
  Nat.eqb (Reminder.appointmentId r) id.

(** [Appointment.findOne({ phone })]. *)
Definition Appointment_findOne (phone : field) (d : DB) : option Appointment.t :=
  find (has_phone phone) (appointments d).

(** What reaches [next(error)], or the [catch] of a handler. *)
Inductive Error : Type :=
| ValidationError (path : string)
| CastError (path : string)
| RangeError (message : string)
| MongooseError (message : string).

(** The payload [{ phone, name }] kept for a token. *)
Record Identity : Type := mkIdentity {
  id_phone : field;
  id_name : field
}.

(** What [tokenStore[token]] can evaluate to: a payload stored under the
    token, or a member of [Object.prototype] that the object inherits. *)
Inductive StoreValue : Type :=
| Own (data : Identity)
| Inherited (key : string).

(** What [res.json] sends. *)
Inductive Json : Type :=
| JSaved (message : string) (appointment : Appointment.t)
| JMessage (message : string)
| JError (error : string)
| JToken (token : string)
| JData (data : StoreValue).

Record Response : Type := mkResponse {
  code : nat;
  json : Json
}.

(** The outcome of a handler: the response sent, the error passed on after
    it (the response is out by then), and the database left behind. *)
Record Outcome : Type := mkOutcome {
  sent : Response;
  raised : option Error;
  after : DB
}.

Section Server.

(** The host's parser of date strings behind [new Date(string)]: the
    time value, or [None] for NaN. *)
Variable Date_parse : string -> option Z.

(** Whether the installed Mongoose drops the keys of an update whose
    value is [undefined] (later versions) or writes them as [null]. *)
Variable omitUndefined : bool.

Definition new_Date_string (s : string) : JsDate := Date_parse s ≫= TimeClip.

(** The alert time, as both writing handlers compute it:
    [new Date(`${date}T${time}`)], then
    [new Date(appointmentDateTime.getTime() - 60 * 60 * 1000)]. *)
Definition alertTimeOf (date time : field) : JsDate :=
  let appointmentDateTime := new_Date_string (template date +:+ "T" +:+ template time) in
  new_Date_number ((λ t, t - 60 * 60 * 1000) <$> getTime appointmentDateTime).

(** One path of a [$set]. *)
Definition assign (old new : field) : field :=
  match new with
  | Some v => Some v
  | None => if omitUndefined then old else None
  end.

(** ** Appointment model *)

(** The update [{ name, phone, service, time, date, notes }] of submit. *)
Definition set_booking (b : Body.t) (a : Appointment.t) : Appointment.t :=
  Appointment.mk (Appointment._id a)
    (assign (Appointment.name a) (Body.name b))
    (assign (Appointment.phone a) (Body.phone b))
    (assign (Appointment.service a) (Body.service b))
    (assign (Appointment.time a) (Body.time b))
    (assign (Appointment.date a) (Body.date b))
    (assign (Appointment.notes a) (Body.notes b)).

(** The update [{ name, service, time, date, notes }] of modify. *)
Definition set_details (b : Body.t) (a : Appointment.t) : Appointment.t :=
  Appointment.mk (Appointment._id a)
    (assign (Appointment.name a) (Body.name b))
    (Appointment.phone a)
    (assign (Appointment.service a) (Body.service b))
    (assign (Appointment.time a) (Body.time b))
    (assign (Appointment.date a) (Body.date b))
    (assign (Appointment.notes a) (Body.notes b)).

(** [Appointment.findOneAndUpdate({ phone }, update, { upsert: true, new: true })]. *)
Definition Appointment_upsert (b : Body.t) (d : DB) : Appointment.t * DB :=
  match Appointment_findOne (Body.phone b) d with
  | Some a =>
      (set_booking b a,
       mkDB (update_first (has_phone (Body.phone b)) (set_booking b) (appointments d))
            (reminders d) (nextId d))
  | None =>
      let a := Appointment.mk (nextId d) (Body.name b) (Body.phone b)
                 (Body.service b) (Body.time b) (Body.date b) (Body.notes b) in
      (a, mkDB (appointments d ++ [a]) (reminders d) (S (nextId d)))
  end.

(** [Appointment.findOneAndUpdate({ phone }, update, { new: true })]. *)
Definition Appointment_update (b : Body.t) (d : DB) : option Appointment.t * DB :=
  match Appointment_findOne (Body.phone b) d with
  | Some a =>
      (Some (set_details b a),
       mkDB (update_first (has_phone (Body.phone b)) (set_details b) (appointments d))
            (reminders d) (nextId d))
  | None => (None, d)
  end.

(** [Appointment.findOneAndDelete({ phone })]. *)
Definition Appointment_findOneAndDelete (phone : field) (d : DB) : option Appointment.t * DB :=
  match Appointment_findOne phone d with
  | Some a =>
      (Some a, mkDB (remove_first (has_phone phone) (appointments d)) (reminders d) (nextId d))
  | None => (None, d)
  end.

(** ** Reminder model

    [alertTime] is a required [Date] path: an invalid date does not cast,
    so the write is refused and the collection stays as it was. *)

(** [Reminder.create({ appointmentId, alertTime })]; [status] takes its
    default. *)
Definition Reminder_create (id : ObjectId) (alertTime : JsDate) (d : DB) : Error + DB :=
  match alertTime with
  | Some t =>
      inr (mkDB (appointments d)
             (reminders d ++ [Reminder.mk (nextId d) id t "pending"])
             (S (nextId d)))
  | None => inl (ValidationError "alertTime")
  end.

Definition reschedule (t : Z) (r : Reminder.t) : Reminder.t :=
  Reminder.mk (Reminder._id r) (Reminder.appointmentId r) t "pending".

(** [Reminder.findOneAndUpdate({ appointmentId }, { alertTime, status: 'pending' }, { new: true })]. *)
Definition Reminder_findOneAndUpdate (id : ObjectId) (alertTime : JsDate) (d : DB) : Error + DB :=
  match alertTime with
  | Some t =>
      inr (mkDB (appointments d)
             (update_first (owned_by id) (reschedule t) (reminders d))
             (nextId d))
  | None => inl (CastError "alertTime")
  end.

(** [Reminder.deleteOne({ appointmentId })]. *)
Definition Reminder_deleteOne (id : ObjectId) (d : DB) : DB :=
  mkDB (appointments d) (remove_first (owned_by id) (reminders d)) (nextId d).

(** ** The booking routes *)

Definition ok (j : Json) : Response := mkResponse 200 j.

(** The part of submit and modify that runs after the response: the
    error of the reminder write, if any, goes to [next]. *)
Definition after_response (r : Response) (d : DB) (w : Error + DB) : Outcome :=
  match w with
  | inr d' => mkOutcome r None d'
  | inl e => mkOutcome r (Some e) d
  end.

(** [POST /submit-booking]. *)
Definition submit_booking (b : Body.t) (d : DB) : Outcome :=
  if negb (truthy (Body.name b)) || negb (truthy (Body.phone b))
     || negb (truthy (Body.service b)) || negb (truthy (Body.time b))
     || negb (truthy (Body.date b))
  then mkOutcome (mkResponse 400 (JError "All fields are required!")) None d
  else
    let '(appointment, d1) := Appointment_upsert b d in
    let res := ok (JSaved "Appointment saved successfully!" appointment) in
    let alertTime := alertTimeOf (Body.date b) (Body.time b) in
    after_response res d1 (Reminder_create (Appointment._id appointment) alertTime d1).

(** [POST /modify-appointment]. *)
Definition modify_appointment (b : Body.t) (d : DB) : Outcome :=
  match Appointment_update b d with
  | (None, _) =>
      mkOutcome (mkResponse 404 (JError "Appointment not found!")) None d
  | (Some appointment, d1) =>
      let res := ok (JSaved "Appointment updated successfully!" appointment) in
      let alertTime := alertTimeOf (Body.date b) (Body.time b) in
      after_response res d1
        (Reminder_findOneAndUpdate (Appointment._id appointment) alertTime d1)
  end.

(** [POST /cancel-appointment]. *)
Definition cancel_appointment (b : Body.t) (d : DB) : Outcome :=
  match Appointment_findOneAndDelete (Body.phone b) d with
  | (None, _) =>
      mkOutcome (mkResponse 404 (JError "Appointment not found!")) None d
  | (Some result, d1) =>
      mkOutcome (ok (JMessage "Appointment canceled successfully!")) None
        (Reminder_deleteOne (Appointment._id result) d1)
  end.

(** ** The sibling server

    The server that signs its tokens turns the alert time into an ISO
    string before the write: [alertTime.toISOString()] throws on an
    invalid date, and Mongoose casts the string of a valid one back to
    the same instant.  The string is represented by that instant. *)
Definition toISOString (d : JsDate) : Error + Z :=
  match d with
  | Some t => inr t
  | None => inl (RangeError "Invalid time value")
  end.

Definition submit_booking_utc (b : Body.t) (d : DB) : Outcome :=
  if negb (truthy (Body.name b)) || negb (truthy (Body.phone b))
     || negb (truthy (Body.service b)) || negb (truthy (Body.time b))
     || negb (truthy (Body.date b))
  then mkOutcome (mkResponse 400 (JError "All fields are required!")) None d
  else
    let '(appointment, d1) := Appointment_upsert b d in
    let res := ok (JSaved "Appointment saved successfully!" appointment) in
    let alertTime := alertTimeOf (Body.date b) (Body.time b) in
    after_response res d1
      (match toISOString alertTime with
       | inr alertTimeISO =>
           Reminder_create (Appointment._id appointment) (Some alertTimeISO) d1
       | inl e => inl e
       end).

(** ** Sequences of requests *)

Inductive Request : Type :=
| SubmitBooking (b : Body.t)
| ModifyAppointment (b : Body.t)
| CancelAppointment (b : Body.t).

Definition handle (q : Request) (d : DB) : Outcome :=
  match q with
  | SubmitBooking b => submit_booking b d
  | ModifyAppointment b => modify_appointment b d
  | CancelAppointment b => cancel_appointment b d
  end.

(** The database after a sequence of requests, handled in order. *)
Definition run (qs : list Request) (d : DB) : DB :=
  fold_left (λ d q, after (handle q d)) qs d.

(** ** The consistency of the two collections *)

(** The alert time that the current [date] and [time] of an appointment
    call for. *)
Definition due (a : Appointment.t) : JsDate :=
  alertTimeOf (Appointment.date a) (Appointment.time a).

Definition reminder_of (a : Appointment.t) (r : Reminder.t) : Prop :=
  Reminder.appointmentId r = Appointment._id a.

(** Every appointment has a reminder, and every reminder belongs to an
    appointment of the collection and alerts one hour before it. *)
Definition consistent (d : DB) : Prop :=
  Forall (λ a, Exists (reminder_of a) (reminders d)) (appointments d)
  ∧ Forall (λ r, Exists (λ a, reminder_of a r ∧ due a = Some (Reminder.alertTime r))
                   (appointments d))
      (reminders d).

(** No two reminders for one appointment. *)
Definition single_reminders (d : DB) : Prop :=
  NoDup (Reminder.appointmentId <$> reminders d).

(** The invariant of the runs in which each appointment keeps its one
    reminder: identifiers are fresh and distinct, the reminders refer to
    the appointments one to one, and each alerts when its appointment
    calls for. *)
Definition well_formed (d : DB) : Prop :=
  Forall (λ a, Appointment._id a < nextId d)%nat (appointments d)
  ∧ NoDup (Appointment._id <$> appointments d)
  ∧ Reminder.appointmentId <$> reminders d ≡ₚ Appointment._id <$> appointments d
  ∧ ∀ r a, r ∈ reminders d → a ∈ appointments d → reminder_of a r →
      due a = Some (Reminder.alertTime r).

(** A request that carries a date and a time with a valid alert time
    and, for a submission, a phone without an appointment. *)
Definition admissible (q : Request) (d : DB) : Prop :=
  match q with
  | SubmitBooking b =>
      is_Some (alertTimeOf (Body.date b) (Body.time b))
      ∧ Appointment_findOne (Body.phone b) d = None
  | ModifyAppointment b =>
      is_Some (Body.date b) ∧ is_Some (Body.time b)
      ∧ is_Some (alertTimeOf (Body.date b) (Body.time b))
  | CancelAppointment _ => True
  end.

Fixpoint admissible_run (qs : list Request) (d : DB) : Prop :=
  match qs with
  | [] => True
  | q :: qs' => admissible q d ∧ admissible_run qs' (after (handle q d))
  end.

(** ** The claims of the specification that the server does not meet,
    as predicates *)

(** A successful modify leaves the first reminder of the appointment
    with the alert time of the new date and time, and pending. *)
Definition modify_reschedules (b : Body.t) (d : DB) : Prop :=
  let o := modify_appointment b d in
  code (sent o) = 200%nat →
  ∀ a, Appointment_findOne (Body.phone b) (after o) = Some a →
    ∃ r, find (owned_by (Appointment._id a)) (reminders (after o)) = Some r
         ∧ alertTimeOf (Body.date b) (Body.time b) = Some (Reminder.alertTime r)
         ∧ Reminder.status r = "pending".

(** A submission with an invalid alert time succeeds, the reminder write
    does not fail, and a reminder record is added. *)
Definition submit_stores_invalid (b : Body.t) (d : DB) : Prop :=
  let o := submit_booking b d in
  alertTimeOf (Body.date b) (Body.time b) = None →
  code (sent o) = 200%nat ∧ raised o = None
  ∧ length (reminders (after o)) = S (length (reminders d)).

End Server.

(** * Requests of the scenarios *)

(** The date parser of the scenarios: the format of the standard, on a
    host in UTC. *)
Definition utc_parse : string -> option Z := Iso.parse 0.

Definition booking_1400 : Body.t :=
  Body.mk (Some "A") (Some "555") (Some "cut") (Some "14:00") (Some "2024-01-10") None.

Definition booking_1500 : Body.t :=
  Body.mk (Some "A") (Some "555") (Some "cut") (Some "15:00") (Some "2024-01-10") None.

Definition booking_soon : Body.t :=
  Body.mk (Some "A") (Some "555") (Some "cut") (Some "soon") (Some "tomorrow") None.

Definition booking_777 : Body.t :=
  Body.mk (Some "B") (Some "777") (Some "massage") (Some "09:30") (Some "2024-02-01")
    (Some "first visit").

Definition only_phone_555 : Body.t :=
  Body.mk None (Some "555") None None None None.

(** * The token store

    [const tokenStore = {}]: an ordinary object used as a map from token to
    payload.  Its own properties are a finite map; reading a key that is
    not an own property continues in [Object.prototype]. *)

Definition Object_prototype : list string :=
  [ "constructor"; "__defineGetter__"; "__defineSetter__"; "hasOwnProperty";
    "__lookupGetter__"; "__lookupSetter__"; "isPrototypeOf";
    "propertyIsEnumerable"; "toString"; "valueOf"; "__proto__";
    "toLocaleString" ].

(** [tokenStore[key]]; [None] is [undefined]. *)
Definition tokenStore_get (tokenStore : gmap string Identity) (key : string) : option StoreValue :=
  match tokenStore !! key with
  | Some data => Some (Own data)
  | None =>
      if bool_decide (key ∈ Object_prototype) then Some (Inherited key) else None
  end.

(** [tokenStore[key] = data], for the keys the server writes (tokens of
    letters and digits, never [__proto__]). *)
Definition tokenStore_set (tokenStore : gmap string Identity) (key : string) (data : Identity)
  : gmap string Identity :=
  <[key := data]> tokenStore.

Definition chars : string :=
  "ABCDEFGHIJKLMNOPQRSTUVWXYZabcdefghijklmnopqrstuvwxyz0123456789".

(** [s.charAt(i)]: the empty string out of range. *)
Definition charAt (s : string) (i : nat) : string :=
  match String.get i s with
  | Some c => String c EmptyString
  | None => EmptyString
  end.

(** [Math.floor(Math.random() * n)]: one of [0 .. n-1], chosen by the
    draw [u] of the random source. *)
Definition floor_random (n u : nat) : nat := (u mod n)%nat.

(** [generateSimpleToken()]; [draw i] is the random draw of iteration [i]. *)
Definition generateSimpleToken (draw : nat -> nat) : string :=
  fold_left
    (λ token i, token +:+ charAt chars (floor_random (String.length chars) (draw i)))
    (seq 0 8) EmptyString.

(** [GET /generate-token]. *)
Definition generate_token (draw : nat -> nat) (phone name : field)
    (tokenStore : gmap string Identity) : Response * gmap string Identity :=
  if negb (truthy phone) || negb (truthy name)
  then (mkResponse 400 (JError "Phone and Name are required"), tokenStore)
  else
    let token := generateSimpleToken draw in
    (mkResponse 200 (JToken token),
     tokenStore_set tokenStore token (mkIdentity phone name)).

(** [GET /validate-token].  The handler reads the object and leaves it as
    it is; a falsy [data] is thrown and caught as 401. *)
Definition validate_token (token : field) (tokenStore : gmap string Identity)
  : Response * gmap string Identity :=
  if negb (truthy token)
  then (mkResponse 400 (JError "Token is required"), tokenStore)
  else
    match tokenStore_get tokenStore (template token) with
    | Some data => (mkResponse 200 (JData data), tokenStore)
    | None => (mkResponse 401 (JError "Invalid or expired token"), tokenStore)
    end.

(** * The lookup routes

    Three routes read an appointment by phone and write nothing.  The
    phone of [/check-phone/:phone] and [/appointment/:phone] is a segment
    of the path, a string; that of [/confirmation] is a field of the query
    string. *)

(** What the lookup routes send. *)
Inductive LookupJson : Type :=
| LExists (appointment : option Appointment.t)
| LAppointment (appointment : Appointment.t)
| LError (error : string).

Record LookupResponse : Type := mkLookup {
  lookup_code : nat;
  lookup_json : LookupJson
}.

(** [GET /check-phone/:phone]: [{ exists: true, appointment }] or
    [{ exists: false }]. *)
Definition check_phone (phone : string) (d : DB) : LookupResponse :=
  match Appointment_findOne (Some phone) d with
  | Some appointment => mkLookup 200 (LExists (Some appointment))
  | None => mkLookup 200 (LExists None)
  end.

(** [GET /appointment/:phone]. *)
Definition get_appointment (phone : string) (d : DB) : LookupResponse :=
  match Appointment_findOne (Some phone) d with
  | Some appointment => mkLookup 200 (LAppointment appointment)
  | None => mkLookup 404 (LError "Appointment not found!")
  end.

(** [GET /confirmation]. *)
Definition confirmation (phone : field) (d : DB) : LookupResponse :=
  if negb (truthy phone)
  then mkLookup 400 (LError "Phone number is required!")
  else
    match Appointment_findOne phone d with
    | Some appointment => mkLookup 200 (LAppointment appointment)
    | None => mkLookup 404 (LError "Appointment not found!")
    end.

(** The phone that a booking request names. *)
Definition target (q : Request) : field :=
  match q with
  | SubmitBooking b => Body.phone b
  | ModifyAppointment b => Body.phone b
  | CancelAppointment b => Body.phone b
  end.

(** The responses to a sequence of requests, in order, for a server given
    by its handler. *)
Fixpoint responses (handler : Request -> DB -> Outcome) (qs : list Request) (d : DB)
  : list Response :=
  match qs with
  | [] => []
  | q :: qs' => sent (handler q d) :: responses handler qs' (after (handler q d))
  end.

(** * The modify of the sibling server

    The server that signs its tokens converts the alert time with
    [toISOString] and then calls
    [Reminder.findOneAndUpdate({ appointmentId }, { alertTime: alertTimeISO },
    { status: 'pending' }, { new: true })]: the update is [{ alertTime }]
    alone, [{ status: 'pending' }] stands where the options go and
    [{ new: true }] where a callback went. *)

(** The update [{ alertTime }]: the status stays. *)
Definition set_alertTime (t : Z) (r : Reminder.t) : Reminder.t :=
  Reminder.mk (Reminder._id r) (Reminder.appointmentId r) t (Reminder.status r).

(** The call with four arguments.  [callbacks] tells whether the installed
    Mongoose still takes a callback as last argument, and then refuses,
    before any write, one that is not a function, or has none and leaves
    the fourth argument unread (later versions). *)
Definition Reminder_findOneAndUpdate_utc (callbacks : bool) (id : ObjectId)
    (alertTimeISO : Z) (d : DB) : Error + DB :=
  if callbacks then inl (MongooseError "Callback must be a function")
  else
    inr (mkDB (appointments d)
           (update_first (owned_by id) (set_alertTime alertTimeISO) (reminders d))
           (nextId d)).

(** [POST /modify-appointment] of the sibling server. *)
Definition modify_appointment_utc (Date_parse : string -> option Z)
    (omitUndefined callbacks : bool) (b : Body.t) (d : DB) : Outcome :=
  match Appointment_update omitUndefined b d with
  | (None, _) =>
      mkOutcome (mkResponse 404 (JError "Appointment not found!")) None d
  | (Some appointment, d1) =>
      let res := ok (JSaved "Appointment updated successfully!" appointment) in
      let alertTime := alertTimeOf Date_parse (Body.date b) (Body.time b) in
      after_response res d1
        (match toISOString alertTime with
         | inr alertTimeISO =>
             Reminder_findOneAndUpdate_utc callbacks (Appointment._id appointment)
               alertTimeISO d1
         | inl e => inl e
         end)
  end.

(** A database in which the reminder of the booking of 14:00 has been
    sent. *)
Definition reminder_sent : DB :=
  mkDB
    [Appointment.mk 0 (Some "A") (Some "555") (Some "cut") (Some "14:00")
       (Some "2024-01-10") None]
    [Reminder.mk 1 0 1704891600000 "sent"] 2.

(** * The server without reminders

    [server.js] has the same booking routes and no [Reminder] model: each
    handler ends with its response. *)
Module Server_js.

(** [POST /submit-booking]. *)
Definition submit_booking (omitUndefined : bool) (b : Body.t) (d : DB) : Outcome :=
  if negb (truthy (Body.name b)) || negb (truthy (Body.phone b))
     || negb (truthy (Body.service b)) || negb (truthy (Body.time b))
     || negb (truthy (Body.date b))
  then mkOutcome (mkResponse 400 (JError "All fields are required!")) None d
  else
    let '(appointment, d1) := Appointment_upsert omitUndefined b d in
    mkOutcome (ok (JSaved "Appointment saved successfully!" appointment)) None d1.

(** [POST /modify-appointment]. *)
Definition modify_appointment (omitUndefined : bool) (b : Body.t) (d : DB) : Outcome :=
  match Appointment_update omitUndefined b d with
  | (None, _) =>
      mkOutcome (mkResponse 404 (JError "Appointment not found!")) None d
  | (Some appointment, d1) =>
      mkOutcome (ok (JSaved "Appointment updated successfully!" appointment)) None d1
  end.

(** [POST /cancel-appointment]. *)
Definition cancel_appointment (b : Body.t) (d : DB) : Outcome :=
  match Appointment_findOneAndDelete (Body.phone b) d with
  | (None, _) =>
      mkOutcome (mkResponse 404 (JError "Appointment not found!")) None d
  | (Some result, d1) =>
      mkOutcome (ok (JMessage "Appointment canceled successfully!")) None d1
  end.

Definition handle (omitUndefined : bool) (q : Request) (d : DB) : Outcome :=
  match q with
  | SubmitBooking b => submit_booking omitUndefined b d
  | ModifyAppointment b => modify_appointment omitUndefined b d
  | CancelAppointment b => cancel_appointment b d
  end.

Definition run (omitUndefined : bool) (qs : list Request) (d : DB) : DB :=
  fold_left (λ d q, after (handle omitUndefined q d)) qs d.

End Server_js.

(** An appointment without its identifier, which the database chooses. *)
Definition anonymous (a : Appointment.t) : Appointment.t :=
  Appointment.mk 0 (Appointment.name a) (Appointment.phone a) (Appointment.service a)
    (Appointment.time a) (Appointment.date a) (Appointment.notes a).

(** A response, with the identifier of the appointment it carries left
    out. *)
Definition view (r : Response) : Response :=
  match json r with
  | JSaved message appointment => mkResponse (code r) (JSaved message (anonymous appointment))
  | _ => r
  end.

(** * The one-document queries *)

Section Queries.

Context {A : Type} (p : A -> bool).

Lemma find_split (l : list A) (a : A) :
  find p l = Some a →
  ∃ l1 l2, l = l1 ++ a :: l2 ∧ p a = true ∧ find p l1 = None.
Proof.
  induction l as [|x l IH]; simpl; [discriminate|].
  destruct (p x) eqn:Hx.
  - intros [= ->]. by exists [], l.
  - intros Hf. destruct (IH Hf) as (l1 & l2 & -> & Ha & Hn).
    exists (x :: l1), l2. simpl. by rewrite Hx.
Qed.

Lemma find_none_Forall (l : list A) :
  find p l = None ↔ Forall (λ x, p x = false) l.
Proof.
  induction l as [|x l IH]; simpl.
  - split; [constructor | done].
  - destruct (p x) eqn:Hx.
    + split; [discriminate|]. intros H. inversion H; congruence.
    + rewrite IH. split; [by constructor | by inversion 1].
Qed.

Lemma find_app_none (l1 l2 : list A) :
  find p l1 = None → find p (l1 ++ l2) = find p l2.
Proof.
  induction l1 as [|x l1 IH]; simpl; [done|].
  destruct (p x); [discriminate | exact IH].
Qed.

Lemma find_middle (l1 l2 : list A) (a : A) :
  find p l1 = None → p a = true → find p (l1 ++ a :: l2) = Some a.
Proof. intros Hn Ha. rewrite find_app_none by done. simpl. by rewrite Ha. Qed.

Lemma update_first_split (f : A -> A) (l1 l2 : list A) (a : A) :
  find p l1 = None → p a = true →
  update_first p f (l1 ++ a :: l2) = l1 ++ f a :: l2.
Proof.
  intros Hn Ha. induction l1 as [|x l1 IH]; simpl in *.
  - by rewrite Ha.
  - destruct (p x); [discriminate|]. by rewrite IH.
Qed.

Lemma update_first_none (f : A -> A) (l : list A) :
  find p l = None → update_first p f l = l.
Proof.
  induction l as [|x l IH]; simpl; [done|].
  destruct (p x); [discriminate|]. intros Hn. by rewrite IH.
Qed.

Lemma remove_first_split (l1 l2 : list A) (a : A) :
  find p l1 = None → p a = true →
  remove_first p (l1 ++ a :: l2) = l1 ++ l2.
Proof.
  intros Hn Ha. induction l1 as [|x l1 IH]; simpl in *.
  - by rewrite Ha.
  - destruct (p x); [discriminate|]. by rewrite IH.
Qed.

Lemma remove_first_none (l : list A) :
  find p l = None → remove_first p l = l.
Proof.
  induction l as [|x l IH]; simpl; [done|].
  destruct (p x); [discriminate|]. intros Hn. by rewrite IH.
Qed.

End Queries.

(** * Truthiness *)

Lemma truthy_Some (v : field) : truthy v = true → ∃ s, v = Some s ∧ s ≠ "".
Proof.
  destruct v as [s|]; simpl; [|discriminate].
  intros H. exists s. split; [done|]. intros ->. discriminate.
Qed.

Lemma complete_passes (b : Body.t) :
  complete b →
  negb (truthy (Body.name b)) || negb (truthy (Body.phone b))
  || negb (truthy (Body.service b)) || negb (truthy (Body.time b))
  || negb (truthy (Body.date b)) = false.
Proof. intros (-> & -> & -> & -> & ->). reflexivity. Qed.

Lemma incomplete_fails (b : Body.t) :
  truthy (Body.name b) = false ∨ truthy (Body.phone b) = false
  ∨ truthy (Body.service b) = false ∨ truthy (Body.time b) = false
  ∨ truthy (Body.date b) = false →
  negb (truthy (Body.name b)) || negb (truthy (Body.phone b))
  || negb (truthy (Body.service b)) || negb (truthy (Body.time b))
  || negb (truthy (Body.date b)) = true.
Proof.
  intros H.
  destruct (truthy (Body.name b)), (truthy (Body.phone b)),
    (truthy (Body.service b)), (truthy (Body.time b)), (truthy (Body.date b));
    simpl; try reflexivity.
  destruct H as [H|[H|[H|[H|H]]]]; discriminate.
Qed.

(** * Validation at the boundary *)

Lemma after_response_sent (r : Response) (d : DB) (w : Error + DB) :
  sent (after_response r d w) = r.
Proof. by destruct w. Qed.

(** C6: a submission in which one of name, phone, service, time and date
    is missing is answered 400 "All fields are required!" before any
    write: nothing is raised and the database, appointments and reminders
    alike, is the one the request found.  Both servers agree. *)
Theorem submit_missing_field_rejected
    (Date_parse : string -> option Z) (omitUndefined : bool) (b : Body.t) (d : DB) :
  Body.name b = None ∨ Body.phone b = None ∨ Body.service b = None
  ∨ Body.time b = None ∨ Body.date b = None →
  submit_booking Date_parse omitUndefined b d
  = mkOutcome (mkResponse 400 (JError "All fields are required!")) None d
  ∧ submit_booking_utc Date_parse omitUndefined b d
    = mkOutcome (mkResponse 400 (JError "All fields are required!")) None d.
Proof.
  intros H. unfold submit_booking, submit_booking_utc.
  rewrite incomplete_fails; [done|].
  destruct H as [H|[H|[H|[H|H]]]]; rewrite H; simpl; tauto.
Qed.

Lemma submit_missing_field_rejected_witness :
  let b := Body.mk (Some "A") (Some "555") (Some "cut") None (Some "2024-01-10") None in
  let d := after (submit_booking utc_parse false booking_1400 emptyDB) in
  Body.time b = None
  ∧ submit_booking utc_parse false b d
    = mkOutcome (mkResponse 400 (JError "All fields are required!")) None d.
Proof.
  intros b d. split; [reflexivity|].
  apply (submit_missing_field_rejected utc_parse false b d).
  right; right; right; left; reflexivity.
Defined.

(** C10: presence is tested by truthiness, so a submission in which one of
    name, phone, service, time and date is the empty string is answered
    400 like one that lacks the field, and writes nothing. *)
Theorem submit_empty_field_rejected
    (Date_parse : string -> option Z) (omitUndefined : bool) (b : Body.t) (d : DB) :
  Body.name b = Some "" ∨ Body.phone b = Some "" ∨ Body.service b = Some ""
  ∨ Body.time b = Some "" ∨ Body.date b = Some "" →
  submit_booking Date_parse omitUndefined b d
  = mkOutcome (mkResponse 400 (JError "All fields are required!")) None d
  ∧ submit_booking_utc Date_parse omitUndefined b d
    = mkOutcome (mkResponse 400 (JError "All fields are required!")) None d.
Proof.
  intros H. unfold submit_booking, submit_booking_utc.
  rewrite incomplete_fails; [done|].
  destruct H as [H|[H|[H|[H|H]]]]; rewrite H; simpl; tauto.
Qed.

Lemma submit_empty_field_rejected_witness :
  let b := Body.mk (Some "A") (Some "555") (Some "") (Some "14:00") (Some "2024-01-10") None in
  let d := after (submit_booking utc_parse false booking_1400 emptyDB) in
  Body.service b = Some ""
  ∧ submit_booking utc_parse false b d
    = mkOutcome (mkResponse 400 (JError "All fields are required!")) None d.
Proof.
  intros b d. split; [reflexivity|].
  apply (submit_empty_field_rejected utc_parse false b d).
  right; right; left; reflexivity.
Defined.

(** C9: modify checks no field.  Whenever the phone of the request has an
    appointment, the answer is 200 "Appointment updated successfully!" with
    the updated appointment, whatever the other fields are, absent ones
    included; it is never the 400 of a validation. *)
Theorem modify_validates_nothing
    (Date_parse : string -> option Z) (omitUndefined : bool)
    (b : Body.t) (d : DB) (a : Appointment.t) :
  Appointment_findOne (Body.phone b) d = Some a →
  sent (modify_appointment Date_parse omitUndefined b d)
  = mkResponse 200
      (JSaved "Appointment updated successfully!" (set_details omitUndefined b a)).
Proof.
  intros H. unfold modify_appointment, Appointment_update. rewrite H.
  apply after_response_sent.
Qed.

Lemma modify_validates_nothing_witness :
  let d := after (submit_booking utc_parse false booking_1400 emptyDB) in
  let a := Appointment.mk 0 (Some "A") (Some "555") (Some "cut") (Some "14:00")
             (Some "2024-01-10") None in
  Appointment_findOne (Body.phone only_phone_555) d = Some a
  ∧ sent (modify_appointment utc_parse false only_phone_555 d)
    = mkResponse 200
        (JSaved "Appointment updated successfully!"
           (Appointment.mk 0 None (Some "555") None None None None)).
Proof.
  intros d a. split; [reflexivity|].
  apply (modify_validates_nothing utc_parse false only_phone_555 d a).
  reflexivity.
Defined.

(** * The alert time *)

Lemma TimeClip_Some (t T : Z) :
  TimeClip t = Some T → T = t ∧ - maxTime ≤ t ≤ maxTime.
Proof.
  unfold TimeClip. destruct (Z.leb_spec (Z.abs t) maxTime) as [Hle|]; [|done].
  intros [= <-]. lia.
Qed.

Lemma TimeClip_in_range (t : Z) :
  - maxTime ≤ t ≤ maxTime → TimeClip t = Some t.
Proof.
  intros H. unfold TimeClip.
  destruct (Z.leb_spec (Z.abs t) maxTime); [done | lia].
Qed.

Lemma new_Date_string_range (Date_parse : string -> option Z) (s : string) (T : Z) :
  new_Date_string Date_parse s = Some T → - maxTime ≤ T ≤ maxTime.
Proof.
  unfold new_Date_string. destruct (Date_parse s) as [t|]; simpl; [|done].
  intros H. apply TimeClip_Some in H as [-> ?]. done.
Qed.

(** One hour before a valid appointment time, unless that falls below the
    least time value of a date. *)
Lemma alertTimeOf_valid (Date_parse : string -> option Z) (date time : field) (T : Z) :
  new_Date_string Date_parse (template date +:+ "T" +:+ template time) = Some T →
  - maxTime ≤ T - 3600 * 1000 →
  alertTimeOf Date_parse date time = Some (T - 3600 * 1000).
Proof.
  intros HT Hlow. pose proof (new_Date_string_range _ _ _ HT).
  unfold alertTimeOf, new_Date_number, getTime. rewrite HT. simpl.
  replace (T - 60 * 60 * 1000) with (T - 3600 * 1000) by lia.
  apply TimeClip_in_range. lia.
Qed.

(** * The upsert of a submission *)

Lemma has_phone_true (phone : field) (a : Appointment.t) :
  has_phone phone a = true ↔ Appointment.phone a = phone.
Proof. unfold has_phone. apply bool_decide_eq_true. Qed.

Lemma assign_Some (omitUndefined : bool) (old new : field) :
  is_Some new → assign omitUndefined old new = new.
Proof. by intros [v ->]. Qed.

Lemma upsert_reminders (omitUndefined : bool) (b : Body.t) (d : DB) :
  reminders (Appointment_upsert omitUndefined b d).2 = reminders d.
Proof. unfold Appointment_upsert. by destruct (Appointment_findOne _ d). Qed.

(** After the upsert, a lookup by the phone of the request finds the
    appointment that the upsert returned. *)
Lemma upsert_findOne (omitUndefined : bool) (b : Body.t) (d : DB) :
  is_Some (Body.phone b) →
  Appointment_findOne (Body.phone b) (Appointment_upsert omitUndefined b d).2
  = Some (Appointment_upsert omitUndefined b d).1.
Proof.
  intros Hp. unfold Appointment_upsert, Appointment_findOne.
  destruct (find _ (appointments d)) as [a|] eqn:Hf; simpl.
  - destruct (find_split _ _ _ Hf) as (l1 & l2 & -> & Ha & Hn).
    rewrite update_first_split by done.
    apply find_middle; [done|].
    apply has_phone_true. simpl. by apply assign_Some.
  - rewrite find_app_none by done. simpl.
    replace (has_phone _ _) with true; [done|].
    symmetry. by apply has_phone_true.
Qed.

Lemma submit_booking_complete
    (Date_parse : string -> option Z) (omitUndefined : bool) (b : Body.t) (d : DB) :
  complete b →
  submit_booking Date_parse omitUndefined b d
  = let u := Appointment_upsert omitUndefined b d in
    after_response (ok (JSaved "Appointment saved successfully!" u.1)) u.2
      (Reminder_create (Appointment._id u.1)
         (alertTimeOf Date_parse (Body.date b) (Body.time b)) u.2).
Proof.
  intros Hc. unfold submit_booking. rewrite complete_passes by done.
  by destruct (Appointment_upsert omitUndefined b d).
Qed.

(** Whatever the alert time, both servers leave the same database and send
    the same response; they differ in the error of an invalid date. *)
Lemma submit_booking_utc_same
    (Date_parse : string -> option Z) (omitUndefined : bool) (b : Body.t) (d : DB) :
  sent (submit_booking_utc Date_parse omitUndefined b d)
  = sent (submit_booking Date_parse omitUndefined b d)
  ∧ after (submit_booking_utc Date_parse omitUndefined b d)
    = after (submit_booking Date_parse omitUndefined b d).
Proof.
  unfold submit_booking_utc, submit_booking.
  destruct (_ || _); [done|].
  destruct (Appointment_upsert omitUndefined b d) as [a d1].
  by destruct (alertTimeOf _ _ _).
Qed.





(** * Dates that do not parse *)

(** C5, as the specification has it, fails on the submission of the date
    "tomorrow" at "soon" to the empty database: the response is 200, but
    the reminder write is refused and no reminder is stored. *)
Lemma submit_invalid_date_not_stored :
  alertTimeOf utc_parse (Body.date booking_soon) (Body.time booking_soon) = None
  ∧ code (sent (submit_booking utc_parse false booking_soon emptyDB)) = 200%nat
  ∧ raised (submit_booking utc_parse false booking_soon emptyDB)
    = Some (ValidationError "alertTime")
  ∧ reminders (after (submit_booking utc_parse false booking_soon emptyDB)) = []
  ∧ ¬ submit_stores_invalid utc_parse false booking_soon emptyDB.
Proof.
  repeat split; try reflexivity.
  intros H. destruct (H eq_refl) as (_ & Hr & _). discriminate Hr.
Qed.

(** The appointment that the upsert of a submission returns has the name,
    phone, service, time and date of the request, and its notes when the
    request has notes, the phone had no appointment, or an absent field is
    written as [null]. *)
Lemma upsert_fields (omitUndefined : bool) (b : Body.t) (d : DB) :
  complete b →
  let a := (Appointment_upsert omitUndefined b d).1 in
  Appointment.name a = Body.name b
  ∧ Appointment.phone a = Body.phone b
  ∧ Appointment.service a = Body.service b
  ∧ Appointment.time a = Body.time b
  ∧ Appointment.date a = Body.date b
  ∧ (is_Some (Body.notes b) ∨ Appointment_findOne (Body.phone b) d = None
     ∨ omitUndefined = false →
     Appointment.notes a = Body.notes b).
Proof.
  intros (Hn & Hp & Hs & Ht & Hd) a. subst a.
  apply truthy_Some in Hn as (n & Hn & _). apply truthy_Some in Hp as (p & Hp & _).
  apply truthy_Some in Hs as (s & Hs & _). apply truthy_Some in Ht as (t & Ht & _).
  apply truthy_Some in Hd as (dt & Hd & _).
  unfold Appointment_upsert.
  destruct (Appointment_findOne (Body.phone b) d) as [a0|] eqn:H0; simpl.
  - rewrite Hn, Hp, Hs, Ht, Hd. simpl.
    repeat split.
    intros [[v Hv]|[Hnone| ->]]; [by rewrite Hv | done |].
    by destruct (Body.notes b).
  - by repeat split.
Qed.

(** C5, amended: a submission with its five fields whose date and time do
    not give a valid alert time is not turned away.  The appointment is
    written, with the name, phone, service, time and date of the request,
    and answered with 200; the reminder write then fails, with a validation
    error on [alertTime] (a [RangeError] of [toISOString] on the sibling
    server), and the reminders are those of before. *)
Theorem submit_invalid_date_outcome
    (Date_parse : string -> option Z) (omitUndefined : bool) (b : Body.t) (d : DB) :
  complete b →
  alertTimeOf Date_parse (Body.date b) (Body.time b) = None →
  let o := submit_booking Date_parse omitUndefined b d in
  let o' := submit_booking_utc Date_parse omitUndefined b d in
  ∃ a,
    sent o = mkResponse 200 (JSaved "Appointment saved successfully!" a)
    ∧ Appointment_findOne (Body.phone b) (after o) = Some a
    ∧ Appointment.name a = Body.name b
    ∧ Appointment.phone a = Body.phone b
    ∧ Appointment.service a = Body.service b
    ∧ Appointment.time a = Body.time b
    ∧ Appointment.date a = Body.date b
    ∧ (is_Some (Body.notes b) ∨ Appointment_findOne (Body.phone b) d = None
       ∨ omitUndefined = false →
       Appointment.notes a = Body.notes b)
    ∧ reminders (after o) = reminders d
    ∧ raised o = Some (ValidationError "alertTime")
    ∧ sent o' = sent o ∧ after o' = after o
    ∧ raised o' = Some (RangeError "Invalid time value").
Proof.
  intros Hc Ha o o'. subst o o'.
  assert (Hp : is_Some (Body.phone b)).
  { destruct Hc as (_ & Hp & _). apply truthy_Some in Hp as (p & -> & _). by eexists. }
  destruct (submit_booking_utc_same Date_parse omitUndefined b d) as [Hs Hd].
  rewrite Hs, Hd.
  pose proof (upsert_fields omitUndefined b d Hc) as Hfields.
  unfold submit_booking_utc.
  rewrite submit_booking_complete, complete_passes by done.
  destruct (Appointment_upsert omitUndefined b d) as [a d1] eqn:Hu.
  rewrite Ha. simpl. exists a.
  pose proof (upsert_findOne omitUndefined b d Hp) as Hf.
  pose proof (upsert_reminders omitUndefined b d) as Hr.
  rewrite Hu in Hf, Hr. simpl in Hf, Hr, Hfields.
  destruct Hfields as (F1 & F2 & F3 & F4 & F5 & F6).
  by repeat split.
Qed.

Lemma submit_invalid_date_outcome_witness :
  (complete booking_soon
   ∧ alertTimeOf utc_parse (Body.date booking_soon) (Body.time booking_soon) = None)
  ∧ ∃ a,
      sent (submit_booking utc_parse false booking_soon emptyDB)
      = mkResponse 200 (JSaved "Appointment saved successfully!" a)
      ∧ Appointment_findOne (Body.phone booking_soon)
          (after (submit_booking utc_parse false booking_soon emptyDB)) = Some a
      ∧ Appointment.name a = Body.name booking_soon
      ∧ Appointment.phone a = Body.phone booking_soon
      ∧ Appointment.service a = Body.service booking_soon
      ∧ Appointment.time a = Body.time booking_soon
      ∧ Appointment.date a = Body.date booking_soon
      ∧ (is_Some (Body.notes booking_soon)
         ∨ Appointment_findOne (Body.phone booking_soon) emptyDB = None
         ∨ false = false →
         Appointment.notes a = Body.notes booking_soon)
      ∧ reminders (after (submit_booking utc_parse false booking_soon emptyDB))
        = reminders emptyDB
      ∧ raised (submit_booking utc_parse false booking_soon emptyDB)
        = Some (ValidationError "alertTime")
      ∧ sent (submit_booking_utc utc_parse false booking_soon emptyDB)
        = sent (submit_booking utc_parse false booking_soon emptyDB)
      ∧ after (submit_booking_utc utc_parse false booking_soon emptyDB)
        = after (submit_booking utc_parse false booking_soon emptyDB)
      ∧ raised (submit_booking_utc utc_parse false booking_soon emptyDB)
        = Some (RangeError "Invalid time value").
Proof.
  assert (H : complete booking_soon
    ∧ alertTimeOf utc_parse (Body.date booking_soon) (Body.time booking_soon) = None).
  { split; [by repeat split | reflexivity]. }
  split; [exact H|].
  exact (submit_invalid_date_outcome utc_parse false booking_soon emptyDB
           (proj1 H) (proj2 H)).
Defined.

(** On [server4.js], a modify that moves the booking of 14:00 to
    "tomorrow" at "soon" is answered 200, and the reminder keeps the alert
    time of 13:00: nothing validates the date of a modify. *)
Lemma modify_invalid_date_keeps_reminder :
  let d := after (submit_booking utc_parse false booking_1400 emptyDB) in
  let o := modify_appointment utc_parse false booking_soon d in
  code (sent o) = 200%nat
  ∧ reminders (after o) = [Reminder.mk 1 0 1704891600000 "pending"]
  ∧ alertTimeOf utc_parse (Body.date booking_soon) (Body.time booking_soon) = None
  ∧ ¬ modify_reschedules utc_parse false booking_soon d.
Proof.
  intros d o. repeat split; try reflexivity.
  intros H.
  destruct (H eq_refl (Appointment.mk 0 (Some "A") (Some "555") (Some "cut")
                         (Some "soon") (Some "tomorrow") None) eq_refl)
    as (r & _ & Hr & _).
  discriminate Hr.
Qed.

(** On [server4.js], a modify of an existing appointment answers 200.
    When the new date and time give a valid alert time, the first reminder
    of the appointment takes that alert time and the status pending, and
    the other reminders stay; when they do not, no reminder changes and a
    cast error on [alertTime] is passed on after the response. *)
Lemma modify_reschedules_valid_dates
    (Date_parse : string -> option Z) (omitUndefined : bool)
    (b : Body.t) (d : DB) (a : Appointment.t) :
  Appointment_findOne (Body.phone b) d = Some a →
  let o := modify_appointment Date_parse omitUndefined b d in
  code (sent o) = 200%nat
  ∧ (∀ t, alertTimeOf Date_parse (Body.date b) (Body.time b) = Some t →
       raised o = None
       ∧ reminders (after o)
         = update_first (owned_by (Appointment._id a)) (reschedule t) (reminders d)
       ∧ ∀ r, find (owned_by (Appointment._id a)) (reminders d) = Some r →
           find (owned_by (Appointment._id a)) (reminders (after o))
           = Some (Reminder.mk (Reminder._id r) (Appointment._id a) t "pending"))
  ∧ (alertTimeOf Date_parse (Body.date b) (Body.time b) = None →
       raised o = Some (CastError "alertTime")
       ∧ reminders (after o) = reminders d).
Proof.
  intros Hf o. subst o.
  unfold modify_appointment, Appointment_update. rewrite Hf.
  split; [by rewrite after_response_sent|]. split.
  - intros t ->. simpl. split; [done|]. split; [done|].
    intros r Hr.
    destruct (find_split _ _ _ Hr) as (l1 & l2 & -> & Ho & Hn).
    rewrite update_first_split by done.
    rewrite find_middle; [|done|done].
    unfold reschedule. do 2 f_equal.
    unfold owned_by in Ho. by apply Nat.eqb_eq in Ho.
  - intros ->. by simpl.
Qed.

Lemma modify_reschedules_valid_dates_witness :
  let d := mkDB
    [Appointment.mk 0 (Some "A") (Some "555") (Some "cut") (Some "14:00")
       (Some "2024-01-10") None]
    [Reminder.mk 1 0 1704891600000 "sent"] 2 in
  let a := Appointment.mk 0 (Some "A") (Some "555") (Some "cut") (Some "14:00")
             (Some "2024-01-10") None in
  Appointment_findOne (Body.phone booking_1500) d = Some a
  ∧ code (sent (modify_appointment utc_parse false booking_1500 d)) = 200%nat
  ∧ reminders (after (modify_appointment utc_parse false booking_1500 d))
    = [Reminder.mk 1 0 1704895200000 "pending"].
Proof.
  intros d a.
  assert (Hf : Appointment_findOne (Body.phone booking_1500) d = Some a) by reflexivity.
  split; [exact Hf|].
  destruct (modify_reschedules_valid_dates utc_parse false booking_1500 d a Hf)
    as (Hc & Hv & _).
  split; [exact Hc|].
  destruct (Hv 1704895200000 eq_refl) as (_ & Hr & _).
  rewrite Hr. reflexivity.
Defined.

(** The modify of the sibling server changes the status of no reminder. *)
Lemma sibling_modify_status_kept
    (Date_parse : string -> option Z) (omitUndefined callbacks : bool)
    (b : Body.t) (d : DB) :
  Reminder.status <$>
    reminders (after (modify_appointment_utc Date_parse omitUndefined callbacks b d))
  = Reminder.status <$> reminders d.
Proof.
  unfold modify_appointment_utc, Appointment_update.
  destruct (Appointment_findOne (Body.phone b) d) as [a|]; [|done].
  destruct (alertTimeOf _ _ _) as [t|]; simpl; [|done].
  unfold Reminder_findOneAndUpdate_utc. destruct callbacks; simpl; [done|].
  generalize (reminders d). intros l.
  induction l as [|r l IH]; [done|].
  cbn [update_first]. destruct (owned_by _ r); rewrite !fmap_cons; [done|].
  by rewrite IH.
Qed.

(** C4: on the sibling server a successful modify does not reset the
    status.  The booking of 14:00, whose reminder has been sent, is moved
    to 15:00: the answer is 200 and the reminder is still "sent", with the
    old alert time when Mongoose refuses the fourth argument and the new
    one when it does not read it; after a submission on that server, the
    former leaves the alert time of 13:00 in place.  [server4.js], given
    the same request, writes 14:00 and "pending". *)
Theorem sibling_modify_keeps_status :
  (∀ callbacks : bool,
      sent (modify_appointment_utc utc_parse false callbacks booking_1500 reminder_sent)
      = mkResponse 200
          (JSaved "Appointment updated successfully!"
             (Appointment.mk 0 (Some "A") (Some "555") (Some "cut") (Some "15:00")
                (Some "2024-01-10") None))
      ∧ Reminder.status <$>
          reminders (after (modify_appointment_utc utc_parse false callbacks
                              booking_1500 reminder_sent))
        = ["sent"])
  ∧ reminders (after (modify_appointment_utc utc_parse false true booking_1500
                        reminder_sent))
    = [Reminder.mk 1 0 1704891600000 "sent"]
  ∧ reminders (after (modify_appointment_utc utc_parse false false booking_1500
                        reminder_sent))
    = [Reminder.mk 1 0 1704895200000 "sent"]
  ∧ reminders (after (modify_appointment_utc utc_parse false true booking_1500
                        (after (submit_booking_utc utc_parse false booking_1400 emptyDB))))
    = [Reminder.mk 1 0 1704891600000 "pending"]
  ∧ reminders (after (modify_appointment utc_parse false booking_1500 reminder_sent))
    = [Reminder.mk 1 0 1704895200000 "pending"].
Proof.
  split; [|repeat split; reflexivity].
  intros callbacks. split; [by destruct callbacks|].
  by rewrite sibling_modify_status_kept.
Qed.

(** * Unknown phones *)

(** A modify for a phone without appointment is answered 404 and leaves
    the database as it was. *)
Lemma modify_unknown_phone
    (Date_parse : string -> option Z) (omitUndefined : bool) (b : Body.t) (d : DB) :
  Appointment_findOne (Body.phone b) d = None →
  modify_appointment Date_parse omitUndefined b d
  = mkOutcome (mkResponse 404 (JError "Appointment not found!")) None d.
Proof. intros H. unfold modify_appointment, Appointment_update. by rewrite H. Qed.

(** A cancel for a phone without appointment is answered 404 and leaves
    the database as it was. *)
Lemma cancel_unknown_phone (b : Body.t) (d : DB) :
  Appointment_findOne (Body.phone b) d = None →
  cancel_appointment b d
  = mkOutcome (mkResponse 404 (JError "Appointment not found!")) None d.
Proof. intros H. unfold cancel_appointment, Appointment_findOneAndDelete. by rewrite H. Qed.

(** * Cancelling *)

(** A cancel for a phone with an appointment removes the first appointment
    of that phone and the first reminder that refers to it. *)
Lemma cancel_known_phone (b : Body.t) (d : DB) (a : Appointment.t) :
  Appointment_findOne (Body.phone b) d = Some a →
  cancel_appointment b d
  = mkOutcome (mkResponse 200 (JMessage "Appointment canceled successfully!")) None
      (mkDB (remove_first (has_phone (Body.phone b)) (appointments d))
         (remove_first (owned_by (Appointment._id a)) (reminders d))
         (nextId d)).
Proof. intros H. unfold cancel_appointment, Appointment_findOneAndDelete. by rewrite H. Qed.

(** When the appointment has one reminder, no reminder of it is left. *)
Lemma cancel_single_reminder (b : Body.t) (d : DB) (a : Appointment.t) :
  Appointment_findOne (Body.phone b) d = Some a →
  (length (filter (λ r, Reminder.appointmentId r = Appointment._id a) (reminders d)) ≤ 1)%nat →
  Forall (λ r, Reminder.appointmentId r ≠ Appointment._id a)
    (reminders (after (cancel_appointment b d))).
Proof.
  intros Hf Hone. rewrite (cancel_known_phone _ _ _ Hf). simpl.
  destruct (find (owned_by (Appointment._id a)) (reminders d)) as [r|] eqn:Hr.
  - destruct (find_split _ _ _ Hr) as (l1 & l2 & Hl & Ho & Hn).
    rewrite Hl in *. rewrite remove_first_split by done.
    apply find_none_Forall in Hn.
    assert (Hra : Reminder.appointmentId r = Appointment._id a)
      by (by apply Nat.eqb_eq in Ho).
    rewrite filter_app, filter_cons_True, length_app in Hone by done.
    simpl in Hone.
    apply Forall_app. split.
    + eapply Forall_impl; [exact Hn|]. intros x Hx. unfold owned_by in Hx.
      by apply Nat.eqb_neq in Hx.
    + assert (Hnil : filter (λ r, Reminder.appointmentId r = Appointment._id a) l2 = []).
      { apply length_zero_iff_nil. lia. }
      apply Forall_forall. intros x Hx Hxa.
      assert (Hin : x ∈ filter (λ r, Reminder.appointmentId r = Appointment._id a) l2)
        by (apply list_elem_of_filter; done).
      rewrite Hnil in Hin. by apply not_elem_of_nil in Hin.
  - rewrite remove_first_none by done.
    apply find_none_Forall in Hr.
    eapply Forall_impl; [exact Hr|]. intros x Hx. unfold owned_by in Hx.
    by apply Nat.eqb_neq in Hx.
Qed.

(** * Submitting twice *)

(** C2: two submissions for the phone 555, the second at 15:00, leave one
    appointment with the fields of the second and two reminders for it:
    the one of the first submission with its alert time of 13:00, and a
    new one. *)
Theorem resubmission_duplicates_reminder :
  let d := run utc_parse false
             [SubmitBooking booking_1400; SubmitBooking booking_1500] emptyDB in
  appointments d
  = [Appointment.mk 0 (Some "A") (Some "555") (Some "cut") (Some "15:00")
       (Some "2024-01-10") None]
  ∧ reminders d
    = [Reminder.mk 1 0 1704891600000 "pending";
       Reminder.mk 2 0 1704895200000 "pending"].
Proof. split; reflexivity. Qed.

(** C7: after two submissions for the phone 555, a cancel of that phone is
    answered 200 and removes the appointment and one of its two reminders;
    the other reminder stays, for an appointment that is gone. *)
Theorem cancel_after_resubmission_leaves_reminder :
  let d := run utc_parse false
             [SubmitBooking booking_1400; SubmitBooking booking_1500] emptyDB in
  let o := cancel_appointment only_phone_555 d in
  sent o = mkResponse 200 (JMessage "Appointment canceled successfully!")
  ∧ appointments (after o) = []
  ∧ reminders (after o) = [Reminder.mk 2 0 1704895200000 "pending"].
Proof. repeat split; reflexivity. Qed.

(** * Tokens *)

Lemma string_length_append (s1 s2 : string) :
  String.length (s1 +:+ s2) = (String.length s1 + String.length s2)%nat.
Proof.
  induction s1 as [|c s1 IH]; [reflexivity|].
  change (String c s1 +:+ s2) with (String c (s1 +:+ s2)).
  simpl. by rewrite IH.
Qed.

Lemma charAt_chars_length (u : nat) :
  String.length (charAt chars (floor_random (String.length chars) u)) = 1%nat.
Proof.
  assert (Hall : Forall (λ k, String.length (charAt chars k) = 1%nat) (seq 0 62)).
  { vm_compute. repeat constructor. }
  rewrite Forall_forall in Hall. apply Hall.
  apply elem_of_seq. unfold floor_random.
  change (String.length chars) with 62%nat.
  pose proof (Nat.mod_upper_bound u 62). lia.
Qed.

(** A generated token has eight characters. *)
Lemma generateSimpleToken_length (draw : nat -> nat) :
  String.length (generateSimpleToken draw) = 8%nat.
Proof.
  unfold generateSimpleToken.
  assert (H : ∀ (l : list nat) (acc : string),
             String.length
               (fold_left
                  (λ token i, token +:+ charAt chars
                                (floor_random (String.length chars) (draw i)))
                  l acc)
             = (String.length acc + length l)%nat).
  { induction l as [|i l IH]; intros acc; [simpl; lia|].
    cbn [fold_left].
    rewrite IH, string_length_append, charAt_chars_length.
    cbn [length]. lia. }
  rewrite H. reflexivity.
Qed.

Lemma generateSimpleToken_truthy (draw : nat -> nat) :
  truthy (Some (generateSimpleToken draw)) = true.
Proof.
  pose proof (generateSimpleToken_length draw) as H. simpl.
  destruct (generateSimpleToken draw); [discriminate | reflexivity].
Qed.

(** A token issued for a phone and a name redeems to that phone and name,
    as often as it is presented: validation leaves the store as it is. *)
Lemma token_round_trip
    (draw : nat -> nat) (phone name : field) (tokenStore : gmap string Identity) :
  truthy phone = true → truthy name = true →
  ∃ token tokenStore',
    generate_token draw phone name tokenStore
    = (mkResponse 200 (JToken token), tokenStore')
    ∧ validate_token (Some token) tokenStore'
      = (mkResponse 200 (JData (Own (mkIdentity phone name))), tokenStore')
    ∧ validate_token (Some token) (validate_token (Some token) tokenStore').2
      = (mkResponse 200 (JData (Own (mkIdentity phone name))), tokenStore').
Proof.
  intros Hp Hn. unfold generate_token. rewrite Hp, Hn. simpl negb. simpl orb.
  cbv iota. eexists _, _. split; [reflexivity|].
  assert (Hv : validate_token (Some (generateSimpleToken draw))
                 (tokenStore_set tokenStore (generateSimpleToken draw)
                    (mkIdentity phone name))
               = (mkResponse 200 (JData (Own (mkIdentity phone name))),
                  tokenStore_set tokenStore (generateSimpleToken draw)
                    (mkIdentity phone name))).
  { unfold validate_token. rewrite generateSimpleToken_truthy. simpl.
    unfold tokenStore_get, tokenStore_set. by rewrite lookup_insert_eq. }
  split; [exact Hv|]. rewrite Hv. exact Hv.
Qed.

(** A token that is neither stored nor the name of an inherited property
    is refused with 401. *)
Lemma validate_unknown_token (token : string) (tokenStore : gmap string Identity) :
  token ≠ "" → tokenStore !! token = None → token ∉ Object_prototype →
  validate_token (Some token) tokenStore
  = (mkResponse 401 (JError "Invalid or expired token"), tokenStore).
Proof.
  intros Hne Hl Hi. unfold validate_token. simpl.
  destruct (String.eqb_spec token ""); [done|]. simpl.
  unfold tokenStore_get. rewrite Hl.
  by rewrite bool_decide_eq_false_2.
Qed.

(** C8: a token that was never issued can pass validation.  In the store
    of a server that has issued nothing, the token "toString", eight
    letters like any token, reads the method that [tokenStore] inherits
    from [Object.prototype]; the value is truthy, so the handler answers
    200 with it instead of 401. *)
Theorem validate_token_inherited_key :
  validate_token (Some "toString") ∅
  = (mkResponse 200 (JData (Inherited "toString")), ∅)
  ∧ String.length "toString" = 8%nat
  ∧ (∅ : gmap string Identity) !! "toString" = None.
Proof. repeat split; reflexivity. Qed.

(** * The invariant of admissible runs *)

Lemma find_some_of_elem {A : Type} (p : A -> bool) (l : list A) (x : A) :
  x ∈ l → p x = true → is_Some (find p l).
Proof.
  intros Hx Hp. destruct (find p l) eqn:Hf; [by eexists|].
  apply find_none_Forall in Hf. rewrite Forall_forall in Hf.
  specialize (Hf x Hx). congruence.
Qed.

Lemma elem_of_middle_weaken {A : Type} (l1 l2 : list A) (x y : A) :
  y ∈ l1 ++ l2 → y ∈ l1 ++ x :: l2.
Proof.
  rewrite !elem_of_app, elem_of_cons. tauto.
Qed.

Lemma NoDup_fmap_middle {A B : Type} (f : A -> B) (l1 l2 : list A) (x y : A) :
  NoDup (f <$> l1 ++ x :: l2) → y ∈ l1 ++ l2 → f y ≠ f x.
Proof.
  rewrite fmap_app, fmap_cons. intros Hnd Hy Heq.
  apply NoDup_app in Hnd as (_ & Hsep & Hnd).
  apply NoDup_cons in Hnd as [Hx _].
  apply elem_of_app in Hy as [Hy|Hy].
  - apply (Hsep (f y)); [by apply list_elem_of_fmap_2|].
    rewrite Heq. apply elem_of_cons. by left.
  - apply Hx. rewrite <- Heq. by apply list_elem_of_fmap_2.
Qed.

Lemma fmap_update_first {A B : Type} (g : A -> B) (p : A -> bool) (f : A -> A) (l : list A) :
  (∀ x, g (f x) = g x) → g <$> update_first p f l = g <$> l.
Proof.
  intros Hg. induction l as [|x l IH]; [done|].
  cbn [update_first].
  destruct (p x); rewrite !fmap_cons; [by rewrite Hg | by rewrite IH].
Qed.

Section Invariant.

Variable Date_parse : string -> option Z.
Variable omitUndefined : bool.

Lemma well_formed_empty : well_formed Date_parse emptyDB.
Proof.
  repeat split; simpl; try constructor.
  intros r a Hr. by apply not_elem_of_nil in Hr.
Qed.

(** In a well-formed database every reminder has its appointment. *)
Lemma reminder_has_appointment (d : DB) (r : Reminder.t) :
  well_formed Date_parse d → r ∈ reminders d →
  ∃ a, a ∈ appointments d ∧ Appointment._id a = Reminder.appointmentId r.
Proof.
  intros (_ & _ & Hperm & _) Hr.
  assert (Hin : Reminder.appointmentId r ∈ Appointment._id <$> appointments d).
  { rewrite <- Hperm. by apply list_elem_of_fmap_2. }
  apply list_elem_of_fmap in Hin as (a & Ha & Hin). by exists a.
Qed.

(** ... and every appointment has its first reminder. *)
Lemma appointment_has_reminder (d : DB) (a : Appointment.t) :
  well_formed Date_parse d → a ∈ appointments d →
  ∃ r, find (owned_by (Appointment._id a)) (reminders d) = Some r.
Proof.
  intros (_ & _ & Hperm & _) Ha.
  assert (Hin : Appointment._id a ∈ Reminder.appointmentId <$> reminders d).
  { rewrite Hperm. by apply list_elem_of_fmap_2. }
  apply list_elem_of_fmap in Hin as (r & Hr & Hin).
  apply (find_some_of_elem (owned_by (Appointment._id a)) _ r Hin).
  unfold owned_by. by apply Nat.eqb_eq.
Qed.

Lemma submit_preserves (b : Body.t) (d : DB) :
  well_formed Date_parse d → admissible Date_parse (SubmitBooking b) d →
  well_formed Date_parse (after (submit_booking Date_parse omitUndefined b d)).
Proof.
  intros Hwf [[t Ht] Hnone].
  unfold submit_booking. destruct (_ || _); [done|].
  unfold Appointment_upsert. rewrite Hnone, Ht. simpl.
  pose proof Hwf as (Hfresh & Hnd & Hperm & Hdue).
  rewrite Forall_forall in Hfresh.
  split; [|split; [|split]]; simpl.
  - apply Forall_app. split.
    + apply Forall_forall. intros a Ha. specialize (Hfresh a Ha). lia.
    + apply Forall_singleton. simpl. lia.
  - rewrite fmap_app. apply NoDup_app. split; [done|]. split; [|apply NoDup_singleton].
    intros x Hx. simpl. rewrite list_elem_of_singleton. intros ->.
    apply list_elem_of_fmap in Hx as (a & Ha & Hin).
    specialize (Hfresh a Hin). lia.
  - rewrite !fmap_app. simpl. by rewrite Hperm.
  - intros r a Hr Ha Hra. unfold reminder_of in Hra.
    apply elem_of_app in Hr as [Hr|Hr%list_elem_of_singleton];
      apply elem_of_app in Ha as [Ha|Ha%list_elem_of_singleton].
    + by apply Hdue.
    + subst a. simpl in Hra.
      destruct (reminder_has_appointment d r Hwf Hr) as (a' & Ha' & Hid).
      specialize (Hfresh a' Ha'). lia.
    + subst r. simpl in Hra. specialize (Hfresh a Ha). lia.
    + subst a r. exact Ht.
Qed.

Lemma modify_preserves (b : Body.t) (d : DB) :
  well_formed Date_parse d → admissible Date_parse (ModifyAppointment b) d →
  well_formed Date_parse (after (modify_appointment Date_parse omitUndefined b d)).
Proof.
  intros Hwf (Hdate & Htime & [t Ht]).
  unfold modify_appointment, Appointment_update.
  destruct (Appointment_findOne (Body.phone b) d) as [a0|] eqn:Hf; [|done].
  rewrite Ht. simpl.
  unfold Appointment_findOne in Hf.
  destruct (find_split _ _ _ Hf) as (l1 & l2 & Hl & Hp & Hn).
  assert (Ha0 : a0 ∈ appointments d).
  { rewrite Hl. apply elem_of_app. right. apply elem_of_cons. by left. }
  destruct (appointment_has_reminder d a0 Hwf Ha0) as [r0 Hr0].
  destruct (find_split _ _ _ Hr0) as (m1 & m2 & Hm & Ho & Hno).
  assert (Hr0a : Reminder.appointmentId r0 = Appointment._id a0)
    by (by apply Nat.eqb_eq in Ho).
  destruct Hwf as (Hfresh & Hnd & Hperm & Hdue).
  assert (Hndr : NoDup (Reminder.appointmentId <$> reminders d)) by (by rewrite Hperm).
  split; [|split; [|split]]; simpl.
  - rewrite Hl in Hfresh |- *. rewrite update_first_split by done.
    rewrite Forall_app, Forall_cons in Hfresh |- *. simpl. tauto.
  - by rewrite fmap_update_first.
  - by rewrite !fmap_update_first.
  - rewrite Hl in Hdue, Hnd |- *. rewrite Hm in Hdue, Hndr |- *.
    rewrite !update_first_split by done.
    intros r a Hr Ha Hra. unfold reminder_of in Hra.
    apply elem_of_app in Ha as [Ha|[->|Ha]%elem_of_cons];
      apply elem_of_app in Hr as [Hr|[->|Hr]%elem_of_cons];
      try (apply Hdue; [set_solver | set_solver | done]);
      simpl in Hra.
    all: try (exfalso;
              apply (NoDup_fmap_middle Appointment._id l1 l2 a0 a Hnd); [set_solver | congruence]).
    all: try (exfalso;
              apply (NoDup_fmap_middle Reminder.appointmentId m1 m2 r0 r Hndr);
              [set_solver | simpl in *; congruence]).
    unfold due. simpl. rewrite !assign_Some by done. exact Ht.
Qed.

Lemma cancel_preserves (b : Body.t) (d : DB) :
  well_formed Date_parse d →
  well_formed Date_parse (after (cancel_appointment b d)).
Proof.
  intros Hwf.
  destruct (Appointment_findOne (Body.phone b) d) as [a0|] eqn:Hf;
    [|by rewrite cancel_unknown_phone].
  rewrite (cancel_known_phone _ _ _ Hf). simpl.
  unfold Appointment_findOne in Hf.
  destruct (find_split _ _ _ Hf) as (l1 & l2 & Hl & Hp & Hn).
  assert (Ha0 : a0 ∈ appointments d).
  { rewrite Hl. apply elem_of_app. right. apply elem_of_cons. by left. }
  destruct (appointment_has_reminder d a0 Hwf Ha0) as [r0 Hr0].
  destruct (find_split _ _ _ Hr0) as (m1 & m2 & Hm & Ho & Hno).
  assert (Hr0a : Reminder.appointmentId r0 = Appointment._id a0)
    by (by apply Nat.eqb_eq in Ho).
  destruct Hwf as (Hfresh & Hnd & Hperm & Hdue).
  rewrite Hl, Hm in *. rewrite !remove_first_split by done.
  rewrite fmap_app, fmap_cons in Hnd.
  rewrite !fmap_app, !fmap_cons in Hperm.
  rewrite <- Permutation_middle in Hnd.
  rewrite <- !Permutation_middle in Hperm.
  split; [|split; [|split]]; simpl.
  - rewrite Forall_app, Forall_cons in Hfresh. rewrite Forall_app. tauto.
  - rewrite fmap_app. by apply NoDup_cons in Hnd as [_ ?].
  - rewrite Hr0a in Hperm. apply (inj (cons _)) in Hperm.
    by rewrite !fmap_app.
  - intros r a Hr Ha. apply Hdue; by apply elem_of_middle_weaken.
Qed.

Lemma handle_preserves (q : Request) (d : DB) :
  well_formed Date_parse d → admissible Date_parse q d →
  well_formed Date_parse (after (handle Date_parse omitUndefined q d)).
Proof.
  destruct q as [b|b|b]; simpl handle.
  - apply submit_preserves.
  - apply modify_preserves.
  - intros Hwf _. by apply cancel_preserves.
Qed.

Lemma run_preserves (qs : list Request) (d : DB) :
  well_formed Date_parse d → admissible_run Date_parse omitUndefined qs d →
  well_formed Date_parse (run Date_parse omitUndefined qs d).
Proof.
  revert d. induction qs as [|q qs IH]; intros d Hwf Hadm; [done|].
  destruct Hadm as [Hq Hqs]. simpl. apply IH; [|done].
  by apply handle_preserves.
Qed.

(** A well-formed database is consistent, with one reminder for each
    appointment. *)
Lemma well_formed_consistent (d : DB) :
  well_formed Date_parse d →
  consistent Date_parse d ∧ single_reminders d.
Proof.
  intros Hwf. split; [split|].
  - apply Forall_forall. intros a Ha.
    destruct (appointment_has_reminder d a Hwf Ha) as [r Hr].
    destruct (find_split _ _ _ Hr) as (m1 & m2 & Hm & Ho & _).
    apply Exists_exists. exists r. split.
    + rewrite Hm. set_solver.
    + unfold reminder_of. by apply Nat.eqb_eq in Ho.
  - apply Forall_forall. intros r Hr.
    destruct (reminder_has_appointment d r Hwf Hr) as (a & Ha & Hid).
    apply Exists_exists. exists a. split; [done|].
    destruct Hwf as (_ & _ & _ & Hdue).
    split; [done|]. by apply Hdue.
  - destruct Hwf as (_ & Hnd & Hperm & _).
    unfold single_reminders. by rewrite Hperm.
Qed.

End Invariant.

(** C1, as the specification has it, fails after the one submission of the
    date "tomorrow" at "soon": the appointment is there and no reminder
    is. *)
Lemma invalid_date_appointment_without_reminder :
  let d := run utc_parse false [SubmitBooking booking_soon] emptyDB in
  appointments d
  = [Appointment.mk 0 (Some "A") (Some "555") (Some "cut") (Some "soon")
       (Some "tomorrow") None]
  ∧ reminders d = []
  ∧ ¬ consistent utc_parse d.
Proof.
  intros d. split; [reflexivity|]. split; [reflexivity|].
  intros [H _].
  change (appointments d) with
    [Appointment.mk 0 (Some "A") (Some "555") (Some "cut") (Some "soon")
       (Some "tomorrow") None] in H.
  change (reminders d) with (@nil Reminder.t) in H.
  apply Forall_cons in H as [H _]. by apply Exists_nil in H.
Qed.

(** C1, amended: start from the empty database and handle any sequence of
    submit, modify and cancel requests in which every submit and modify
    carries a date and a time that give a valid alert time, and no submit
    names a phone that has an appointment at that moment.  Then in the
    state reached a reminder for an appointment exists if and only if the
    appointment exists, there is one reminder for it and no more, and its
    alert time is the one that the current date and time of the
    appointment give, one hour before. *)
Theorem admissible_runs_consistent
    (Date_parse : string -> option Z) (omitUndefined : bool) (qs : list Request) :
  admissible_run Date_parse omitUndefined qs emptyDB →
  consistent Date_parse (run Date_parse omitUndefined qs emptyDB)
  ∧ single_reminders (run Date_parse omitUndefined qs emptyDB).
Proof.
  intros Hadm. apply well_formed_consistent.
  apply run_preserves; [apply well_formed_empty | exact Hadm].
Qed.

Lemma admissible_runs_consistent_witness :
  let qs := [SubmitBooking booking_1400; ModifyAppointment booking_1500;
             SubmitBooking booking_777; CancelAppointment only_phone_555] in
  admissible_run utc_parse false qs emptyDB
  ∧ consistent utc_parse (run utc_parse false qs emptyDB)
  ∧ single_reminders (run utc_parse false qs emptyDB).
Proof.
  intros qs.
  assert (H : admissible_run utc_parse false qs emptyDB).
  { simpl. repeat split; solve [reflexivity | eexists; reflexivity]. }
  split; [exact H|].
  exact (admissible_runs_consistent utc_parse false qs H).
Defined.

(** * One appointment for a phone *)

(** A submission for a phone that has an appointment keeps the appointment
    under its identifier and adds one more reminder for it. *)
Lemma resubmission_adds_reminder
    (Date_parse : string -> option Z) (omitUndefined : bool)
    (b : Body.t) (d : DB) (a : Appointment.t) (t : Z) :
  complete b →
  Appointment_findOne (Body.phone b) d = Some a →
  alertTimeOf Date_parse (Body.date b) (Body.time b) = Some t →
  let o := submit_booking Date_parse omitUndefined b d in
  Appointment_findOne (Body.phone b) (after o) = Some (set_booking omitUndefined b a)
  ∧ reminders (after o)
    = reminders d ++ [Reminder.mk (nextId d) (Appointment._id a) t "pending"].
Proof.
  intros Hc Hf Ht o. subst o.
  assert (Hp : is_Some (Body.phone b)).
  { destruct Hc as (_ & Hp & _). apply truthy_Some in Hp as (p & -> & _). by eexists. }
  pose proof (upsert_findOne omitUndefined b d Hp) as Hu.
  rewrite submit_booking_complete by done.
  unfold Appointment_upsert in *. rewrite Hf in *. simpl in *.
  rewrite Ht. simpl. by split.
Qed.

Lemma remove_first_sublist {A : Type} (p : A -> bool) (l : list A) :
  remove_first p l `sublist_of` l.
Proof.
  induction l as [|x l IH]; simpl; [done|].
  destruct (p x); [by apply sublist_cons | by apply sublist_skip].
Qed.

Section Phones.

Variable Date_parse : string -> option Z.
Variable omitUndefined : bool.

Lemma handle_keeps_phones_apart (q : Request) (d : DB) :
  NoDup (Appointment.phone <$> appointments d) →
  NoDup (Appointment.phone <$> appointments (after (handle Date_parse omitUndefined q d))).
Proof.
  intros Hnd. destruct q as [b|b|b]; simpl handle.
  - unfold submit_booking.
    destruct (_ || _) eqn:Hv; [done|].
    assert (Hp : is_Some (Body.phone b)).
    { destruct (truthy (Body.phone b)) eqn:Hp.
      - apply truthy_Some in Hp as (p & -> & _). by eexists.
      - destruct (truthy (Body.name b)); discriminate. }
    unfold Appointment_upsert.
    destruct (Appointment_findOne (Body.phone b) d) as [a|] eqn:Hf.
    + assert (Hsame : Appointment.phone <$>
                        update_first (has_phone (Body.phone b))
                          (set_booking omitUndefined b) (appointments d)
                      = Appointment.phone <$> appointments d).
      { unfold Appointment_findOne in Hf.
        destruct (find_split _ _ _ Hf) as (l1 & l2 & -> & Ha & Hn).
        rewrite update_first_split by done.
        rewrite !fmap_app, !fmap_cons. simpl.
        rewrite assign_Some by done.
        apply has_phone_true in Ha. by rewrite Ha. }
      destruct (alertTimeOf _ _ _); simpl; by rewrite Hsame.
    + assert (Hnew : NoDup (Appointment.phone <$>
                              appointments d
                              ++ [Appointment.mk (nextId d) (Body.name b) (Body.phone b)
                                    (Body.service b) (Body.time b) (Body.date b)
                                    (Body.notes b)])).
      { rewrite fmap_app. apply NoDup_app. split; [done|].
        split; [|apply NoDup_singleton].
        intros x Hx. simpl. rewrite list_elem_of_singleton. intros ->.
        apply list_elem_of_fmap in Hx as (a & Ha & Hin).
        apply find_none_Forall in Hf. rewrite Forall_forall in Hf.
        specialize (Hf a Hin). unfold has_phone in Hf.
        apply bool_decide_eq_false in Hf. congruence. }
      destruct (alertTimeOf _ _ _); simpl; exact Hnew.
  - unfold modify_appointment, Appointment_update.
    destruct (Appointment_findOne (Body.phone b) d); [|done].
    destruct (alertTimeOf _ _ _); simpl; by rewrite fmap_update_first.
  - unfold cancel_appointment, Appointment_findOneAndDelete.
    destruct (Appointment_findOne (Body.phone b) d); [|done]. simpl.
    eapply sublist_NoDup; [exact Hnd|].
    apply fmap_sublist, remove_first_sublist.
Qed.

(** Whatever the requests, no two appointments share a phone. *)
Lemma one_appointment_per_phone (qs : list Request) (d : DB) :
  NoDup (Appointment.phone <$> appointments d) →
  NoDup (Appointment.phone <$> appointments (run Date_parse omitUndefined qs d)).
Proof.
  revert d. induction qs as [|q qs IH]; intros d Hnd; [done|].
  simpl. by apply IH, handle_keeps_phones_apart.
Qed.

End Phones.


(** * More on tokens *)

Lemma token_round_trip_witness :
  (truthy (Some "555") = true ∧ truthy (Some "A") = true)
  ∧ ∃ token tokenStore',
      generate_token (λ i, i) (Some "555") (Some "A") ∅
      = (mkResponse 200 (JToken token), tokenStore')
      ∧ validate_token (Some token) tokenStore'
        = (mkResponse 200 (JData (Own (mkIdentity (Some "555") (Some "A")))), tokenStore')
      ∧ validate_token (Some token) (validate_token (Some token) tokenStore').2
        = (mkResponse 200 (JData (Own (mkIdentity (Some "555") (Some "A")))), tokenStore').
Proof.
  split; [split; reflexivity|].
  apply (token_round_trip (λ i, i) (Some "555") (Some "A") ∅); reflexivity.
Defined.

Lemma validate_unknown_token_witness :
  ("Zx81kQ07" ≠ ""
   ∧ (generate_token (λ i, i) (Some "555") (Some "A") ∅).2 !! "Zx81kQ07" = None
   ∧ "Zx81kQ07" ∉ Object_prototype)
  ∧ validate_token (Some "Zx81kQ07") (generate_token (λ i, i) (Some "555") (Some "A") ∅).2
    = (mkResponse 401 (JError "Invalid or expired token"),
       (generate_token (λ i, i) (Some "555") (Some "A") ∅).2).
Proof.
  assert (H : "Zx81kQ07" ≠ ""
              ∧ (generate_token (λ i, i) (Some "555") (Some "A") ∅).2 !! "Zx81kQ07" = None
              ∧ "Zx81kQ07" ∉ Object_prototype).
  { split; [discriminate|]. split; [reflexivity|]. compute_done. }
  split; [exact H|].
  destruct H as (H1 & H2 & H3).
  exact (validate_unknown_token "Zx81kQ07" _ H1 H2 H3).
Defined.

Lemma list_ascii_of_string_append (s1 s2 : string) :
  list_ascii_of_string (s1 +:+ s2) = list_ascii_of_string s1 ++ list_ascii_of_string s2.
Proof.
  induction s1 as [|c s1 IH]; [reflexivity|].
  change (String c s1 +:+ s2) with (String c (s1 +:+ s2)).
  simpl. by rewrite IH.
Qed.

Lemma get_elem_of (s : string) (i : nat) (c : ascii) :
  String.get i s = Some c → c ∈ list_ascii_of_string s.
Proof.
  revert i. induction s as [|c' s IH]; intros i; simpl; [discriminate|].
  destruct i as [|i].
  - intros [= ->]. apply elem_of_cons. by left.
  - intros H. apply elem_of_cons. right. by eapply IH.
Qed.

(** A generated token has eight characters, each of them one of the 62
    letters and digits of [chars], whatever the random draws. *)
Theorem generated_token_shape (draw : nat -> nat) :
  String.length (generateSimpleToken draw) = 8%nat
  ∧ Forall (λ c, c ∈ list_ascii_of_string chars)
      (list_ascii_of_string (generateSimpleToken draw)).
Proof.
  split; [apply generateSimpleToken_length|].
  unfold generateSimpleToken.
  assert (H : ∀ (l : list nat) (acc : string),
             Forall (λ c, c ∈ list_ascii_of_string chars) (list_ascii_of_string acc) →
             Forall (λ c, c ∈ list_ascii_of_string chars)
               (list_ascii_of_string
                  (fold_left
                     (λ token i, token +:+ charAt chars
                                   (floor_random (String.length chars) (draw i)))
                     l acc))).
  { induction l as [|i l IH]; intros acc Hacc; [done|].
    cbn [fold_left]. apply IH.
    rewrite list_ascii_of_string_append. apply Forall_app. split; [done|].
    unfold charAt.
    destruct (String.get _ chars) as [c|] eqn:Hc; [|constructor].
    apply Forall_singleton. exact (get_elem_of _ _ _ Hc). }
  apply H. constructor.
Qed.

(** Without a phone or a name no token is issued, and without a token
    none is looked up: the answer is 400 (not the 401 of an unknown
    token) and the store stays as it was. *)
Theorem token_requests_need_fields :
  (∀ (draw : nat -> nat) (phone name : field) (tokenStore : gmap string Identity),
      truthy phone = false ∨ truthy name = false →
      generate_token draw phone name tokenStore
      = (mkResponse 400 (JError "Phone and Name are required"), tokenStore))
  ∧ (∀ (token : field) (tokenStore : gmap string Identity),
      truthy token = false →
      validate_token token tokenStore
      = (mkResponse 400 (JError "Token is required"), tokenStore)).
Proof.
  split.
  - intros draw phone name tokenStore H. unfold generate_token.
    destruct H as [-> | ->]; [done|]. by destruct (truthy phone).
  - intros token tokenStore H. unfold validate_token. by rewrite H.
Qed.

Lemma token_requests_need_fields_witness :
  generate_token (λ i, i) (Some "555") (Some "") {[ "ABCDEFGH" := mkIdentity (Some "1") (Some "B") ]}
  = (mkResponse 400 (JError "Phone and Name are required"),
     {[ "ABCDEFGH" := mkIdentity (Some "1") (Some "B") ]})
  ∧ validate_token (Some "") {[ "ABCDEFGH" := mkIdentity (Some "1") (Some "B") ]}
    = (mkResponse 400 (JError "Token is required"),
       {[ "ABCDEFGH" := mkIdentity (Some "1") (Some "B") ]}).
Proof.
  split.
  - apply (proj1 token_requests_need_fields). by right.
  - by apply (proj2 token_requests_need_fields).
Defined.

(** Issuing a token changes the answer for no other token. *)
Theorem issue_keeps_other_tokens
    (draw : nat -> nat) (phone name : field) (tokenStore : gmap string Identity)
    (token : string) :
  token ≠ generateSimpleToken draw →
  (validate_token (Some token) (generate_token draw phone name tokenStore).2).1
  = (validate_token (Some token) tokenStore).1.
Proof.
  intros Hne. unfold generate_token.
  destruct (_ || _); [reflexivity|]. cbn [snd].
  unfold validate_token. destruct (negb _); [reflexivity|].
  unfold tokenStore_get, tokenStore_set. simpl template.
  rewrite lookup_insert_ne by done.
  destruct (tokenStore !! token); [reflexivity|].
  by destruct (bool_decide (token ∈ Object_prototype)).
Qed.

Lemma issue_keeps_other_tokens_witness :
  "ABCDEFGH" ≠ generateSimpleToken (λ i, (i + 1)%nat)
  ∧ (validate_token (Some "ABCDEFGH")
       (generate_token (λ i, (i + 1)%nat) (Some "777") (Some "B")
          (generate_token (λ i, i) (Some "555") (Some "A") ∅).2).2).1
    = mkResponse 200 (JData (Own (mkIdentity (Some "555") (Some "A")))).
Proof.
  assert (H : "ABCDEFGH" ≠ generateSimpleToken (λ i, (i + 1)%nat)) by discriminate.
  split; [exact H|].
  rewrite (issue_keeps_other_tokens (λ i, (i + 1)%nat) (Some "777") (Some "B")
             (generate_token (λ i, i) (Some "555") (Some "A") ∅).2 "ABCDEFGH" H).
  reflexivity.
Defined.

(** When two issues draw the same token, the second payload replaces the
    first: the token then redeems to the second phone and name. *)
Theorem colliding_issue_replaces_identity
    (draw : nat -> nat) (phone1 name1 phone2 name2 : field)
    (tokenStore : gmap string Identity) :
  truthy phone2 = true → truthy name2 = true →
  let store1 := (generate_token draw phone1 name1 tokenStore).2 in
  let store2 := (generate_token draw phone2 name2 store1).2 in
  (validate_token (Some (generateSimpleToken draw)) store2).1
  = mkResponse 200 (JData (Own (mkIdentity phone2 name2))).
Proof.
  intros Hp Hn store1 store2. subst store2.
  unfold generate_token at 1. rewrite Hp, Hn. simpl.
  unfold validate_token. rewrite generateSimpleToken_truthy. simpl.
  unfold tokenStore_get, tokenStore_set. by rewrite lookup_insert_eq.
Qed.

Lemma colliding_issue_replaces_identity_witness :
  (truthy (Some "777") = true ∧ truthy (Some "B") = true)
  ∧ (validate_token (Some (generateSimpleToken (λ i, i)))
       (generate_token (λ i, i) (Some "777") (Some "B")
          (generate_token (λ i, i) (Some "555") (Some "A") ∅).2).2).1
    = mkResponse 200 (JData (Own (mkIdentity (Some "777") (Some "B")))).
Proof.
  split; [split; reflexivity|].
  apply (colliding_issue_replaces_identity (λ i, i) (Some "555") (Some "A")
           (Some "777") (Some "B") ∅); reflexivity.
Defined.


(** * Writes and lookups *)

Lemma find_update_first_other {A : Type} (p q : A -> bool) (f : A -> A) (l : list A) :
  (∀ x, p x = true → q x = false ∧ q (f x) = false) →
  find q (update_first p f l) = find q l.
Proof.
  intros H. induction l as [|x l IH]; [done|].
  cbn [update_first]. destruct (p x) eqn:Hp; simpl.
  - destruct (H x Hp) as [-> ->]. done.
  - by rewrite IH.
Qed.

Lemma find_remove_first_other {A : Type} (p q : A -> bool) (l : list A) :
  (∀ x, p x = true → q x = false) →
  find q (remove_first p l) = find q l.
Proof.
  intros H. induction l as [|x l IH]; [done|].
  cbn [remove_first]. destruct (p x) eqn:Hp; simpl.
  - by rewrite (H x Hp).
  - by rewrite IH.
Qed.

Lemma find_snoc_other {A : Type} (q : A -> bool) (l : list A) (a : A) :
  q a = false → find q (l ++ [a]) = find q l.
Proof.
  intros Hq. induction l as [|x l IH]; simpl; [by rewrite Hq|].
  destruct (q x); [done | exact IH].
Qed.

Lemma find_update_first_same {A : Type} (p : A -> bool) (f : A -> A) (l : list A) (a : A) :
  find p l = Some a → p (f a) = true →
  find p (update_first p f l) = Some (f a).
Proof.
  intros Hf Hp. destruct (find_split _ _ _ Hf) as (l1 & l2 & -> & Ha & Hn).
  rewrite update_first_split by done. by apply find_middle.
Qed.

Lemma truthy_is_Some (v : field) : truthy v = true → is_Some v.
Proof. intros H. apply truthy_Some in H as (s & -> & _). by eexists. Qed.

(** The appointments after an accepted submission are those of the upsert. *)
Lemma submit_appointments
    (Date_parse : string -> option Z) (omitUndefined : bool) (b : Body.t) (d : DB) :
  complete b →
  appointments (after (submit_booking Date_parse omitUndefined b d))
  = appointments (Appointment_upsert omitUndefined b d).2.
Proof.
  intros Hc. rewrite submit_booking_complete by done. cbv zeta.
  by destruct (alertTimeOf _ _ _).
Qed.

Lemma modify_appointments
    (Date_parse : string -> option Z) (omitUndefined : bool) (b : Body.t) (d : DB) :
  appointments (after (modify_appointment Date_parse omitUndefined b d))
  = appointments (Appointment_update omitUndefined b d).2.
Proof.
  unfold modify_appointment, Appointment_update.
  destruct (Appointment_findOne (Body.phone b) d); [|done].
  by destruct (alertTimeOf _ _ _).
Qed.

(** After an accepted submission the three lookup routes find, under the
    phone of the request, an appointment with the name, phone, service,
    time and date submitted.  Its notes are the submitted ones when the
    request has notes, or the phone had no appointment, or Mongoose writes
    an absent field as [null]. *)
Theorem submit_then_lookup
    (Date_parse : string -> option Z) (omitUndefined : bool)
    (b : Body.t) (d : DB) (p : string) :
  complete b → Body.phone b = Some p →
  let d' := after (submit_booking Date_parse omitUndefined b d) in
  ∃ a,
    check_phone p d' = mkLookup 200 (LExists (Some a))
    ∧ get_appointment p d' = mkLookup 200 (LAppointment a)
    ∧ confirmation (Some p) d' = mkLookup 200 (LAppointment a)
    ∧ Appointment.name a = Body.name b
    ∧ Appointment.phone a = Body.phone b
    ∧ Appointment.service a = Body.service b
    ∧ Appointment.time a = Body.time b
    ∧ Appointment.date a = Body.date b
    ∧ (is_Some (Body.notes b) ∨ Appointment_findOne (Some p) d = None
       ∨ omitUndefined = false →
       Appointment.notes a = Body.notes b).
Proof.
  intros Hc Hp d'. subst d'.
  pose proof Hc as (Hn & Hph & Hs & Ht & Hd).
  assert (Hf : Appointment_findOne (Some p)
                 (after (submit_booking Date_parse omitUndefined b d))
               = Some (Appointment_upsert omitUndefined b d).1).
  { unfold Appointment_findOne. rewrite submit_appointments by done.
    rewrite <- Hp. apply upsert_findOne. by apply truthy_is_Some. }
  exists (Appointment_upsert omitUndefined b d).1.
  unfold check_phone, get_appointment, confirmation. rewrite Hf.
  rewrite Hp in Hph. rewrite Hph. simpl negb. cbv iota.
  split; [done|]. split; [done|]. split; [done|].
  unfold Appointment_upsert in *. rewrite Hp.
  destruct (Appointment_findOne (Some p) d) as [a0|] eqn:H0; simpl.
  - clear Hf. rewrite ?Hp.
    split; [by apply assign_Some, truthy_is_Some|].
    split; [by apply assign_Some|].
    split; [by apply assign_Some, truthy_is_Some|].
    split; [by apply assign_Some, truthy_is_Some|].
    split; [by apply assign_Some, truthy_is_Some|].
    intros [Hnotes|[Hnone| ->]]; [by apply assign_Some | done |].
    by destruct (Body.notes b).
  - by repeat split.
Qed.

Lemma submit_then_lookup_witness :
  let d := after (submit_booking utc_parse true booking_1400 emptyDB) in
  (complete booking_777 ∧ Body.phone booking_777 = Some "777")
  ∧ ∃ a,
      get_appointment "777" (after (submit_booking utc_parse true booking_777 d))
      = mkLookup 200 (LAppointment a)
      ∧ Appointment.name a = Some "B"
      ∧ Appointment.time a = Some "09:30".
Proof.
  intros d.
  assert (H : complete booking_777 ∧ Body.phone booking_777 = Some "777")
    by (split; [by repeat split | reflexivity]).
  split; [exact H|].
  destruct (submit_then_lookup utc_parse true booking_777 d "777" (proj1 H) (proj2 H))
    as (a & _ & Hg & _ & Hname & _ & _ & Htime & _).
  exists a. split; [exact Hg|]. split; [exact Hname | exact Htime].
Defined.

(** After a modify of an existing appointment the lookup routes find the
    appointment under the same phone and identifier, with each field that
    the request carries set to the new value. *)
Theorem modify_then_lookup
    (Date_parse : string -> option Z) (omitUndefined : bool)
    (b : Body.t) (d : DB) (p : string) (a0 : Appointment.t) :
  Body.phone b = Some p →
  Appointment_findOne (Some p) d = Some a0 →
  let d' := after (modify_appointment Date_parse omitUndefined b d) in
  ∃ a,
    check_phone p d' = mkLookup 200 (LExists (Some a))
    ∧ get_appointment p d' = mkLookup 200 (LAppointment a)
    ∧ Appointment._id a = Appointment._id a0
    ∧ Appointment.phone a = Some p
    ∧ (is_Some (Body.name b) → Appointment.name a = Body.name b)
    ∧ (is_Some (Body.service b) → Appointment.service a = Body.service b)
    ∧ (is_Some (Body.time b) → Appointment.time a = Body.time b)
    ∧ (is_Some (Body.date b) → Appointment.date a = Body.date b)
    ∧ (is_Some (Body.notes b) → Appointment.notes a = Body.notes b).
Proof.
  intros Hp H0 d'. subst d'.
  assert (Hph : Appointment.phone a0 = Some p).
  { unfold Appointment_findOne in H0.
    destruct (find_split _ _ _ H0) as (_ & _ & _ & Ha & _).
    by apply has_phone_true in Ha. }
  exists (set_details omitUndefined b a0).
  unfold check_phone, get_appointment, Appointment_findOne.
  rewrite modify_appointments. unfold Appointment_update. rewrite Hp, H0.
  cbn [snd appointments].
  rewrite (find_update_first_same _ _ _ a0) by (done || by apply has_phone_true).
  repeat split; try done; intros Hsome; simpl; by apply assign_Some.
Qed.

Lemma modify_then_lookup_witness :
  let d := after (submit_booking utc_parse true booking_1400 emptyDB) in
  let b := Body.mk None (Some "555") None (Some "16:45") None None in
  (Body.phone b = Some "555"
   ∧ Appointment_findOne (Some "555") d
     = Some (Appointment.mk 0 (Some "A") (Some "555") (Some "cut") (Some "14:00")
               (Some "2024-01-10") None))
  ∧ ∃ a,
      get_appointment "555" (after (modify_appointment utc_parse true b d))
      = mkLookup 200 (LAppointment a)
      ∧ Appointment._id a = 0%nat
      ∧ Appointment.time a = Some "16:45".
Proof.
  intros d b.
  assert (H : Body.phone b = Some "555"
              ∧ Appointment_findOne (Some "555") d
                = Some (Appointment.mk 0 (Some "A") (Some "555") (Some "cut")
                          (Some "14:00") (Some "2024-01-10") None))
    by (split; reflexivity).
  split; [exact H|].
  destruct (modify_then_lookup utc_parse true b d "555" _ (proj1 H) (proj2 H))
    as (a & _ & Hg & Hid & _ & _ & _ & Htime & _).
  exists a. split; [exact Hg|]. split; [exact Hid|].
  apply Htime. by eexists.
Defined.

Lemma find_remove_first_same {A B : Type} `{EqDecision B}
    (g : A -> B) (k : B) (l : list A) :
  NoDup (g <$> l) →
  find (λ x, bool_decide (g x = k)) (remove_first (λ x, bool_decide (g x = k)) l) = None.
Proof.
  intros Hnd.
  destruct (find (λ x, bool_decide (g x = k)) l) as [a|] eqn:Hf.
  - destruct (find_split _ _ _ Hf) as (l1 & l2 & -> & Ha & Hn).
    rewrite remove_first_split by done.
    rewrite find_app_none by done.
    apply find_none_Forall, Forall_forall. intros x Hx.
    apply bool_decide_eq_false. apply bool_decide_eq_true in Ha.
    rewrite <- Ha.
    apply (NoDup_fmap_middle g l1 l2 a x Hnd).
    apply elem_of_app. by right.
  - by rewrite remove_first_none.
Qed.

(** In every state that requests can reach from the empty database, a
    cancel leaves no appointment under its phone: the lookup routes answer
    "not found", and a second cancel is answered 404 and changes nothing. *)
Theorem cancel_then_lookup
    (Date_parse : string -> option Z) (omitUndefined : bool)
    (qs : list Request) (b : Body.t) (p : string) :
  Body.phone b = Some p →
  let d' := after (cancel_appointment b (run Date_parse omitUndefined qs emptyDB)) in
  check_phone p d' = mkLookup 200 (LExists None)
  ∧ get_appointment p d' = mkLookup 404 (LError "Appointment not found!")
  ∧ (p ≠ "" →
     confirmation (Some p) d' = mkLookup 404 (LError "Appointment not found!"))
  ∧ cancel_appointment b d'
    = mkOutcome (mkResponse 404 (JError "Appointment not found!")) None d'.
Proof.
  intros Hp d'.
  assert (Hnone : Appointment_findOne (Some p) d' = None).
  { subst d'.
    pose proof (one_appointment_per_phone Date_parse omitUndefined qs emptyDB
                  (NoDup_nil_2)) as Hnd.
    destruct (Appointment_findOne (Body.phone b)
                (run Date_parse omitUndefined qs emptyDB)) as [a|] eqn:Hf.
    - rewrite (cancel_known_phone _ _ _ Hf). rewrite Hp.
      unfold Appointment_findOne. cbn [after appointments].
      exact (find_remove_first_same Appointment.phone (Some p) _ Hnd).
    - rewrite cancel_unknown_phone by done. cbn [after]. by rewrite <- Hp. }
  unfold check_phone, get_appointment, confirmation. rewrite Hnone.
  split; [done|]. split; [done|]. split.
  - intros Hne. simpl. by destruct (String.eqb_spec p "").
  - apply cancel_unknown_phone. by rewrite Hp.
Qed.

Lemma cancel_then_lookup_witness :
  let qs := [SubmitBooking booking_1400; SubmitBooking booking_777;
             SubmitBooking booking_1500] in
  let d' := after (cancel_appointment only_phone_555 (run utc_parse false qs emptyDB)) in
  Body.phone only_phone_555 = Some "555"
  ∧ check_phone "555" d' = mkLookup 200 (LExists None)
  ∧ get_appointment "555" d' = mkLookup 404 (LError "Appointment not found!").
Proof.
  intros qs d'.
  assert (H : Body.phone only_phone_555 = Some "555") by reflexivity.
  split; [exact H|].
  destruct (cancel_then_lookup utc_parse false qs only_phone_555 "555" H)
    as (Hc & Hg & _).
  split; [exact Hc | exact Hg].
Defined.


(** * What a request leaves alone *)

Lemma submit_phone_kept (omitUndefined : bool) (b : Body.t) (a : Appointment.t) :
  is_Some (Body.phone b) →
  Appointment.phone (set_booking omitUndefined b a) = Body.phone b.
Proof. intros H. simpl. by apply assign_Some. Qed.

(** A submit, modify or cancel for one phone changes the appointment of no
    other phone: a lookup by any other phone finds what it found before. *)
Theorem other_phones_untouched
    (Date_parse : string -> option Z) (omitUndefined : bool)
    (q : Request) (d : DB) (phone : field) :
  phone ≠ target q →
  Appointment_findOne phone (after (handle Date_parse omitUndefined q d))
  = Appointment_findOne phone d.
Proof.
  intros Hne. unfold Appointment_findOne.
  destruct q as [b|b|b]; simpl in Hne; simpl handle.
  - destruct (negb (truthy (Body.name b)) || negb (truthy (Body.phone b))
              || negb (truthy (Body.service b)) || negb (truthy (Body.time b))
              || negb (truthy (Body.date b))) eqn:Hv.
    { unfold submit_booking. by rewrite Hv. }
    assert (Hc : complete b).
    { unfold complete.
      destruct (truthy (Body.name b)), (truthy (Body.phone b)),
        (truthy (Body.service b)), (truthy (Body.time b)), (truthy (Body.date b));
        done. }
    rewrite submit_appointments by done.
    assert (Hp : is_Some (Body.phone b)) by (apply truthy_is_Some; apply Hc).
    unfold Appointment_upsert.
    destruct (Appointment_findOne (Body.phone b) d) as [a|]; simpl.
    + apply find_update_first_other. intros x Hx.
      apply has_phone_true in Hx.
      split; apply bool_decide_eq_false; [congruence|].
      rewrite submit_phone_kept by done. congruence.
    + apply find_snoc_other. apply bool_decide_eq_false. simpl. congruence.
  - rewrite modify_appointments. unfold Appointment_update.
    destruct (Appointment_findOne (Body.phone b) d) as [a|]; [|done]. simpl.
    apply find_update_first_other. intros x Hx.
    apply has_phone_true in Hx.
    split; apply bool_decide_eq_false; simpl; congruence.
  - unfold cancel_appointment, Appointment_findOneAndDelete.
    destruct (Appointment_findOne (Body.phone b) d) as [a|]; [|done]. simpl.
    apply find_remove_first_other. intros x Hx.
    apply has_phone_true in Hx. apply bool_decide_eq_false. congruence.
Qed.

Lemma other_phones_untouched_witness :
  let d := run utc_parse false [SubmitBooking booking_1400; SubmitBooking booking_777]
             emptyDB in
  Some "777" ≠ target (CancelAppointment only_phone_555)
  ∧ Appointment_findOne (Some "777")
      (after (handle utc_parse false (CancelAppointment only_phone_555) d))
    = Some (Appointment.mk 2 (Some "B") (Some "777") (Some "massage") (Some "09:30")
              (Some "2024-02-01") (Some "first visit")).
Proof.
  intros d.
  assert (H : Some "777" ≠ target (CancelAppointment only_phone_555)) by discriminate.
  split; [exact H|].
  rewrite (other_phones_untouched utc_parse false (CancelAppointment only_phone_555)
             d (Some "777") H).
  reflexivity.
Defined.

Section Filters.

Context {A : Type} (P : A -> Prop) `{∀ x, Decision (P x)}.

Lemma filter_update_first_other (p : A -> bool) (f : A -> A) (l : list A) :
  (∀ x, p x = true → ¬ P x ∧ ¬ P (f x)) →
  filter P (update_first p f l) = filter P l.
Proof.
  intros Hp. induction l as [|x l IH]; [done|].
  cbn [update_first]. destruct (p x) eqn:Hx.
  - destruct (Hp x Hx) as [H1 H2]. by rewrite !filter_cons_False.
  - rewrite !filter_cons. by rewrite IH.
Qed.

Lemma filter_remove_first_other (p : A -> bool) (l : list A) :
  (∀ x, p x = true → ¬ P x) →
  filter P (remove_first p l) = filter P l.
Proof.
  intros Hp. induction l as [|x l IH]; [done|].
  cbn [remove_first]. destruct (p x) eqn:Hx.
  - by rewrite filter_cons_False by auto.
  - rewrite !filter_cons. by rewrite IH.
Qed.

End Filters.

(** A request changes the reminders of its own appointment only: the
    reminders that refer to any other identifier already given out are
    the same before and after. *)
Theorem other_reminders_untouched
    (Date_parse : string -> option Z) (omitUndefined : bool)
    (q : Request) (d : DB) (id : ObjectId) :
  (id < nextId d)%nat →
  (∀ a, Appointment_findOne (target q) d = Some a → Appointment._id a ≠ id) →
  filter (λ r, Reminder.appointmentId r = id)
    (reminders (after (handle Date_parse omitUndefined q d)))
  = filter (λ r, Reminder.appointmentId r = id) (reminders d).
Proof.
  intros Hlt Hother.
  destruct q as [b|b|b]; simpl in Hother; simpl handle.
  - unfold submit_booking. destruct (_ || _); [done|].
    unfold Appointment_upsert.
    destruct (Appointment_findOne (Body.phone b) d) as [a|] eqn:Hf;
      destruct (alertTimeOf _ _ _) as [t|]; simpl; try done.
    + rewrite filter_app, filter_cons_False, filter_nil, app_nil_r; [done|].
      simpl. by apply Hother.
    + rewrite filter_app, filter_cons_False, filter_nil, app_nil_r; [done|].
      simpl. lia.
  - unfold modify_appointment, Appointment_update.
    destruct (Appointment_findOne (Body.phone b) d) as [a|] eqn:Hf; [|done].
    destruct (alertTimeOf _ _ _) as [t|]; simpl; [|done].
    apply filter_update_first_other. intros x Hx.
    apply Nat.eqb_eq in Hx. simpl. specialize (Hother a eq_refl).
    split; congruence.
  - unfold cancel_appointment, Appointment_findOneAndDelete.
    destruct (Appointment_findOne (Body.phone b) d) as [a|] eqn:Hf; [|done]. simpl.
    apply filter_remove_first_other. intros x Hx.
    apply Nat.eqb_eq in Hx. specialize (Hother a eq_refl). congruence.
Qed.

Lemma other_reminders_untouched_witness :
  let d := run utc_parse false [SubmitBooking booking_1400; SubmitBooking booking_777]
             emptyDB in
  ((2 < nextId d)%nat
   ∧ ∀ a, Appointment_findOne (target (ModifyAppointment booking_1500)) d = Some a →
          Appointment._id a ≠ 2%nat)
  ∧ filter (λ r, Reminder.appointmentId r = 2%nat)
      (reminders (after (handle utc_parse false (ModifyAppointment booking_1500) d)))
    = [Reminder.mk 3 2 1706776200000 "pending"].
Proof.
  intros d.
  assert (H : (2 < nextId d)%nat
              ∧ ∀ a, Appointment_findOne (target (ModifyAppointment booking_1500)) d
                     = Some a → Appointment._id a ≠ 2%nat).
  { split; [vm_compute; lia|]. intros a [= <-]. discriminate. }
  split; [exact H|].
  rewrite (other_reminders_untouched utc_parse false (ModifyAppointment booking_1500)
             d 2%nat (proj1 H) (proj2 H)).
  reflexivity.
Defined.

(** A modify creates and deletes nothing: the appointments keep their
    identifiers and phones, the reminders their identifiers and owners,
    whether the phone is known or not. *)
Theorem modify_keeps_records
    (Date_parse : string -> option Z) (omitUndefined : bool) (b : Body.t) (d : DB) :
  let d' := after (modify_appointment Date_parse omitUndefined b d) in
  Appointment._id <$> appointments d' = Appointment._id <$> appointments d
  ∧ Appointment.phone <$> appointments d' = Appointment.phone <$> appointments d
  ∧ Reminder._id <$> reminders d' = Reminder._id <$> reminders d
  ∧ Reminder.appointmentId <$> reminders d' = Reminder.appointmentId <$> reminders d.
Proof.
  intros d'. subst d'. unfold modify_appointment, Appointment_update.
  destruct (Appointment_findOne (Body.phone b) d) as [a|]; [|done].
  destruct (alertTimeOf _ _ _) as [t|]; simpl;
    by rewrite ?fmap_update_first.
Qed.

(** * Unknown phones, on both servers *)

(** A modify or a cancel for a phone without appointment is answered 404
    "Appointment not found!", passes no error on and leaves the database
    as it was, on the server with reminders and on the one without. *)
Theorem unknown_phone_not_found
    (Date_parse : string -> option Z) (omitUndefined : bool) (b : Body.t) (d : DB) :
  Appointment_findOne (Body.phone b) d = None →
  let not_found := mkOutcome (mkResponse 404 (JError "Appointment not found!")) None d in
  modify_appointment Date_parse omitUndefined b d = not_found
  ∧ cancel_appointment b d = not_found
  ∧ Server_js.modify_appointment omitUndefined b d = not_found
  ∧ Server_js.cancel_appointment b d = not_found.
Proof.
  intros H not_found. subst not_found.
  unfold modify_appointment, cancel_appointment, Server_js.modify_appointment,
    Server_js.cancel_appointment, Appointment_update, Appointment_findOneAndDelete.
  by rewrite H.
Qed.

Lemma unknown_phone_not_found_witness :
  let d := after (submit_booking utc_parse false booking_1400 emptyDB) in
  Appointment_findOne (Body.phone booking_777) d = None
  ∧ modify_appointment utc_parse false booking_777 d
    = mkOutcome (mkResponse 404 (JError "Appointment not found!")) None d
  ∧ cancel_appointment booking_777 d
    = mkOutcome (mkResponse 404 (JError "Appointment not found!")) None d.
Proof.
  intros d.
  assert (H : Appointment_findOne (Body.phone booking_777) d = None) by reflexivity.
  split; [exact H|].
  destruct (unknown_phone_not_found utc_parse false booking_777 d H) as (Hm & Hc & _).
  split; [exact Hm | exact Hc].
Defined.


(** * What every reachable state has *)

Lemma Forall_update_first {A : Type} (P : A -> Prop) (p : A -> bool) (f : A -> A)
    (l : list A) :
  Forall P l → (∀ x, p x = true → P x → P (f x)) → Forall P (update_first p f l).
Proof.
  intros Hl Hf. induction Hl as [|x l Hx Hl IH]; [constructor|].
  cbn [update_first]. destruct (p x) eqn:Hp; constructor; auto.
Qed.

Lemma Forall_remove_first {A : Type} (P : A -> Prop) (p : A -> bool) (l : list A) :
  Forall P l → Forall P (remove_first p l).
Proof.
  intros Hl. induction Hl as [|x l Hx Hl IH]; [constructor|].
  cbn [remove_first]. destruct (p x); [done | by constructor].
Qed.

(** Whatever requests the server has handled since the database was
    empty, no two appointments share a phone, every appointment has a
    phone that is not empty, and every reminder is pending. *)
Theorem reachable_state_invariants
    (Date_parse : string -> option Z) (omitUndefined : bool) (qs : list Request) :
  let d := run Date_parse omitUndefined qs emptyDB in
  NoDup (Appointment.phone <$> appointments d)
  ∧ Forall (λ a, truthy (Appointment.phone a) = true) (appointments d)
  ∧ Forall (λ r, Reminder.status r = "pending") (reminders d).
Proof.
  intros d. subst d.
  split; [apply one_appointment_per_phone; constructor|].
  assert (Hstep : ∀ q d,
             Forall (λ a, truthy (Appointment.phone a) = true) (appointments d)
             ∧ Forall (λ r, Reminder.status r = "pending") (reminders d) →
             Forall (λ a, truthy (Appointment.phone a) = true)
               (appointments (after (handle Date_parse omitUndefined q d)))
             ∧ Forall (λ r, Reminder.status r = "pending")
                 (reminders (after (handle Date_parse omitUndefined q d)))).
  { intros q d [Ha Hr]. destruct q as [b|b|b]; simpl handle.
    - unfold submit_booking.
      destruct (_ || _) eqn:Hv; [done|].
      assert (Hp : truthy (Body.phone b) = true).
      { destruct (truthy (Body.phone b)); [done|].
        by destruct (truthy (Body.name b)). }
      unfold Appointment_upsert.
      destruct (Appointment_findOne (Body.phone b) d) as [a|];
        destruct (alertTimeOf _ _ _) as [t|]; simpl; split; try done.
      + apply Forall_update_first; [done|]. intros x _ _.
        rewrite submit_phone_kept; [done | by apply truthy_is_Some].
      + apply Forall_app. split; [done|]. by apply Forall_singleton.
      + apply Forall_update_first; [done|]. intros x _ _.
        rewrite submit_phone_kept; [done | by apply truthy_is_Some].
      + apply Forall_app. split; [done|]. by apply Forall_singleton.
      + apply Forall_app. split; [done|]. by apply Forall_singleton.
      + apply Forall_app. split; [done|]. by apply Forall_singleton.
    - unfold modify_appointment, Appointment_update.
      destruct (Appointment_findOne (Body.phone b) d) as [a|]; [|done].
      destruct (alertTimeOf _ _ _) as [t|]; simpl; split; try done.
      + by apply Forall_update_first.
      + by apply Forall_update_first.
      + by apply Forall_update_first.
    - unfold cancel_appointment, Appointment_findOneAndDelete.
      destruct (Appointment_findOne (Body.phone b) d) as [a|]; [|done]. simpl.
      split; by apply Forall_remove_first. }
  assert (Hrun : ∀ qs d,
             Forall (λ a, truthy (Appointment.phone a) = true) (appointments d)
             ∧ Forall (λ r, Reminder.status r = "pending") (reminders d) →
             Forall (λ a, truthy (Appointment.phone a) = true)
               (appointments (run Date_parse omitUndefined qs d))
             ∧ Forall (λ r, Reminder.status r = "pending")
                 (reminders (run Date_parse omitUndefined qs d))).
  { clear qs. induction qs as [|q qs IH]; intros d Hd; [done|].
    simpl. by apply IH, Hstep. }
  apply Hrun. split; constructor.
Qed.

(** * Cancelling and submitting again *)

Lemma cancel_single_reminder_witness :
  let d := run utc_parse false [SubmitBooking booking_1400; SubmitBooking booking_777]
             emptyDB in
  let a := Appointment.mk 0 (Some "A") (Some "555") (Some "cut") (Some "14:00")
             (Some "2024-01-10") None in
  (Appointment_findOne (Body.phone only_phone_555) d = Some a
   ∧ (length (filter (λ r, Reminder.appointmentId r = Appointment._id a) (reminders d))
      ≤ 1)%nat)
  ∧ Forall (λ r, Reminder.appointmentId r ≠ Appointment._id a)
      (reminders (after (cancel_appointment only_phone_555 d))).
Proof.
  intros d a.
  assert (H : Appointment_findOne (Body.phone only_phone_555) d = Some a
              ∧ (length (filter (λ r, Reminder.appointmentId r = Appointment._id a)
                           (reminders d)) ≤ 1)%nat).
  { split; [reflexivity|]. vm_compute. lia. }
  split; [exact H|].
  exact (cancel_single_reminder only_phone_555 d a (proj1 H) (proj2 H)).
Defined.

Lemma resubmission_adds_reminder_witness :
  let d := after (submit_booking utc_parse false booking_1400 emptyDB) in
  let a := Appointment.mk 0 (Some "A") (Some "555") (Some "cut") (Some "14:00")
             (Some "2024-01-10") None in
  (complete booking_1500
   ∧ Appointment_findOne (Body.phone booking_1500) d = Some a
   ∧ alertTimeOf utc_parse (Body.date booking_1500) (Body.time booking_1500)
     = Some 1704895200000)
  ∧ reminders (after (submit_booking utc_parse false booking_1500 d))
    = reminders d ++ [Reminder.mk (nextId d) (Appointment._id a) 1704895200000 "pending"].
Proof.
  intros d a.
  assert (H : complete booking_1500
              ∧ Appointment_findOne (Body.phone booking_1500) d = Some a
              ∧ alertTimeOf utc_parse (Body.date booking_1500) (Body.time booking_1500)
                = Some 1704895200000).
  { split; [by repeat split|]. split; reflexivity. }
  split; [exact H|].
  destruct H as (H1 & H2 & H3).
  exact (proj2 (resubmission_adds_reminder utc_parse false booking_1500 d a
                  1704895200000 H1 H2 H3)).
Defined.

(** * When there is an alert time *)

(** The alert time is defined exactly when the date and time combine to a
    valid time one hour later, and no earlier than the least time value of
    a date. *)
Theorem alert_time_defined_iff
    (Date_parse : string -> option Z) (date time : field) (alert : Z) :
  alertTimeOf Date_parse date time = Some alert
  ↔ new_Date_string Date_parse (template date +:+ "T" +:+ template time)
    = Some (alert + 3600 * 1000)
    ∧ - maxTime ≤ alert.
Proof.
  split.
  - unfold alertTimeOf, new_Date_number, getTime.
    destruct (new_Date_string _ _) as [T|] eqn:HT; simpl; [|done].
    intros H. apply TimeClip_Some in H as [-> [Hlo _]].
    split; [f_equal; lia | lia].
  - intros [HT Hlo].
    rewrite (alertTimeOf_valid _ _ _ _ HT) by lia. f_equal. lia.
Qed.


(** * The server with reminders and the server without *)

Section Respect.

Context {A B : Type} (g : A -> B) (p : A -> bool) (f : A -> A).
Hypothesis p_respects : ∀ x y, g x = g y → p x = p y.
Hypothesis f_respects : ∀ x y, g x = g y → g (f x) = g (f y).

Lemma find_respects (l l' : list A) :
  g <$> l = g <$> l' → g <$> find p l = g <$> find p l'.
Proof.
  revert l'. induction l as [|x l IH]; intros [|y l'] Heq; try done.
  rewrite !fmap_cons in Heq. injection Heq as Hxy Hl.
  simpl. rewrite (p_respects x y Hxy).
  destruct (p y); [simpl; by rewrite Hxy | by apply IH].
Qed.

Lemma update_first_respects (l l' : list A) :
  g <$> l = g <$> l' → g <$> update_first p f l = g <$> update_first p f l'.
Proof.
  revert l'. induction l as [|x l IH]; intros [|y l'] Heq; try done.
  rewrite !fmap_cons in Heq. injection Heq as Hxy Hl.
  cbn [update_first]. rewrite (p_respects x y Hxy).
  destruct (p y); rewrite !fmap_cons.
  - by rewrite (f_respects x y Hxy), Hl.
  - by rewrite Hxy, (IH l' Hl).
Qed.

Lemma remove_first_respects (l l' : list A) :
  g <$> l = g <$> l' → g <$> remove_first p l = g <$> remove_first p l'.
Proof.
  revert l'. induction l as [|x l IH]; intros [|y l'] Heq; try done.
  rewrite !fmap_cons in Heq. injection Heq as Hxy Hl.
  cbn [remove_first]. rewrite (p_respects x y Hxy).
  destruct (p y); [done|]. rewrite !fmap_cons. by rewrite Hxy, (IH l' Hl).
Qed.

End Respect.

Lemma has_phone_anonymous (phone : field) (x y : Appointment.t) :
  anonymous x = anonymous y → has_phone phone x = has_phone phone y.
Proof. unfold anonymous, has_phone. intros [= _ Hp _ _ _ _]. by rewrite Hp. Qed.

Lemma set_booking_anonymous (omitUndefined : bool) (b : Body.t) (x y : Appointment.t) :
  anonymous x = anonymous y →
  anonymous (set_booking omitUndefined b x) = anonymous (set_booking omitUndefined b y).
Proof. unfold anonymous. simpl. intros [= -> -> -> -> -> ->]. reflexivity. Qed.

Lemma set_details_anonymous (omitUndefined : bool) (b : Body.t) (x y : Appointment.t) :
  anonymous x = anonymous y →
  anonymous (set_details omitUndefined b x) = anonymous (set_details omitUndefined b y).
Proof. unfold anonymous. simpl. intros [= -> -> -> -> -> ->]. reflexivity. Qed.

(** One request, handled by both servers on databases with the same
    appointments up to identifiers. *)
Lemma servers_agree_on_request
    (Date_parse : string -> option Z) (omitUndefined : bool)
    (q : Request) (d d' : DB) :
  anonymous <$> appointments d = anonymous <$> appointments d' →
  view (sent (handle Date_parse omitUndefined q d))
  = view (sent (Server_js.handle omitUndefined q d'))
  ∧ anonymous <$> appointments (after (handle Date_parse omitUndefined q d))
    = anonymous <$> appointments (after (Server_js.handle omitUndefined q d')).
Proof.
  intros HR.
  pose proof (λ phone, find_respects anonymous (has_phone phone)
                         (has_phone_anonymous phone) _ _ HR) as Hfind.
  destruct q as [b|b|b]; simpl handle; simpl Server_js.handle.
  - unfold submit_booking, Server_js.submit_booking.
    destruct (_ || _); [done|].
    unfold Appointment_upsert, Appointment_findOne. specialize (Hfind (Body.phone b)).
    destruct (find _ (appointments d)) as [a|], (find _ (appointments d')) as [a'|];
      try done; simpl in Hfind.
    + apply (inj Some) in Hfind as Ha.
      rewrite after_response_sent. split.
      * unfold view. simpl. by rewrite (set_booking_anonymous _ _ _ _ Ha).
      * destruct (alertTimeOf _ _ _); simpl;
          apply update_first_respects;
          auto using has_phone_anonymous, set_booking_anonymous.
    + rewrite after_response_sent. split; [done|].
      destruct (alertTimeOf _ _ _); simpl; rewrite !fmap_app; by rewrite HR.
  - unfold modify_appointment, Server_js.modify_appointment, Appointment_update,
      Appointment_findOne. specialize (Hfind (Body.phone b)).
    destruct (find _ (appointments d)) as [a|], (find _ (appointments d')) as [a'|];
      try done; simpl in Hfind.
    apply (inj Some) in Hfind as Ha.
    rewrite after_response_sent. split.
    + unfold view. simpl. by rewrite (set_details_anonymous _ _ _ _ Ha).
    + destruct (alertTimeOf _ _ _); simpl;
        apply update_first_respects;
        auto using has_phone_anonymous, set_details_anonymous.
  - unfold cancel_appointment, Server_js.cancel_appointment,
      Appointment_findOneAndDelete, Appointment_findOne.
    specialize (Hfind (Body.phone b)).
    destruct (find _ (appointments d)) as [a|], (find _ (appointments d')) as [a'|];
      try done; simpl in Hfind.
    simpl. split; [done|].
    apply remove_first_respects; auto using has_phone_anonymous.
Qed.

Lemma server_js_keeps_reminders (omitUndefined : bool) (qs : list Request) (d : DB) :
  reminders (Server_js.run omitUndefined qs d) = reminders d.
Proof.
  revert d. induction qs as [|q qs IH]; intros d; [done|].
  simpl. rewrite IH. destruct q as [b|b|b]; simpl.
  - unfold Server_js.submit_booking. destruct (_ || _); [done|].
    pose proof (upsert_reminders omitUndefined b d) as Hr.
    by destruct (Appointment_upsert omitUndefined b d).
  - unfold Server_js.modify_appointment, Appointment_update.
    by destruct (Appointment_findOne (Body.phone b) d).
  - unfold Server_js.cancel_appointment, Appointment_findOneAndDelete.
    by destruct (Appointment_findOne (Body.phone b) d).
Qed.

(** The reminders changed nothing in the bookings: started on the empty
    database and given the same requests, [server4.js] and [server.js]
    send the same responses and hold the same appointments, up to the
    identifiers that the database chooses; [server.js] has no reminder. *)
Theorem reminders_leave_bookings_unchanged
    (Date_parse : string -> option Z) (omitUndefined : bool) (qs : list Request) :
  view <$> responses (handle Date_parse omitUndefined) qs emptyDB
  = view <$> responses (Server_js.handle omitUndefined) qs emptyDB
  ∧ anonymous <$> appointments (run Date_parse omitUndefined qs emptyDB)
    = anonymous <$> appointments (Server_js.run omitUndefined qs emptyDB)
  ∧ reminders (Server_js.run omitUndefined qs emptyDB) = [].
Proof.
  split; [|split; [|apply server_js_keeps_reminders]].
  - assert (H : ∀ qs d d',
               anonymous <$> appointments d = anonymous <$> appointments d' →
               view <$> responses (handle Date_parse omitUndefined) qs d
               = view <$> responses (Server_js.handle omitUndefined) qs d').
    { clear qs. induction qs as [|q qs IH]; intros d d' HR; [done|].
      destruct (servers_agree_on_request Date_parse omitUndefined q d d' HR)
        as [Hs Ha].
      cbn [responses]. rewrite !fmap_cons, Hs. f_equal. by apply IH. }
    by apply H.
  - assert (H : ∀ qs d d',
               anonymous <$> appointments d = anonymous <$> appointments d' →
               anonymous <$> appointments (run Date_parse omitUndefined qs d)
               = anonymous <$> appointments (Server_js.run omitUndefined qs d')).
    { clear qs. induction qs as [|q qs IH]; intros d d' HR; [done|].
      simpl. apply IH.
      by destruct (servers_agree_on_request Date_parse omitUndefined q d d' HR). }
    by apply H.
Qed.
